(** * ECR scan results checker: a shallow embedding of [aws_ecr_scan_results.py]

    The script assumes an IAM role, lists the ECR repositories whose name
    contains a search term, waits for the image scan of every repository,
    builds a text report from the scan findings and posts it to a Slack
    webhook.

    Python values are modelled as follows: [str] is [string] (the model covers
    ASCII text, one [ascii] per character), [int] is [Z], a [dict] received
    from a remote service is a record whose fields are [option]s when the
    code looks the key up (a missing key raises [KeyError]), and the instance
    attributes of [ECRScanChecker] together with everything the process does
    to the outside world (remote calls and printed lines) form the state that
    a small state-and-exception monad threads through the methods. *)

From Stdlib Require Import String Ascii List ZArith Lia Bool Arith.
From Stdlib Require Import DecimalString.
Import ListNotations.

Local Open Scope list_scope.
Local Open Scope string_scope.

(** ** Python built-ins and library functions used by the script *)

Module Py.

(** Characters that cannot be written inside a literal. *)
Definition nl_char : ascii := ascii_of_nat 10.
Definition tab_char : ascii := ascii_of_nat 9.
Definition cr_char : ascii := ascii_of_nat 13.
Definition dquote_char : ascii := ascii_of_nat 34.
Definition squote_char : ascii := ascii_of_nat 39.
Definition backslash_char : ascii := ascii_of_nat 92.

Definition nl : string := String nl_char EmptyString.
Definition dquote : string := String dquote_char EmptyString.

(** [' ' * n] *)
Fixpoint spaces (n : nat) : string :=
  match n with
  | O => EmptyString
  | S n' => String " " (spaces n')
  end.

(** [str.isspace] on one ASCII character: tab, line feed, vertical tab, form
    feed, carriage return, the four separators 28..31 and the space. *)
Definition is_space (c : ascii) : bool :=
  let n := nat_of_ascii c in
  (((9 <=? n) && (n <=? 13)) || ((28 <=? n) && (n <=? 32)))%nat.

(** [s.lstrip()] *)
Fixpoint lstrip (s : string) : string :=
  match s with
  | EmptyString => EmptyString
  | String c s' => if is_space c then lstrip s' else s
  end.

(** [s[n:]] *)
Fixpoint drop (n : nat) (s : string) : string :=
  match n, s with
  | O, _ => s
  | S _, EmptyString => EmptyString
  | S n', String _ s' => drop n' s'
  end.

(** [s.startswith(p)] *)
Fixpoint startswith (p s : string) : bool :=
  match p, s with
  | EmptyString, _ => true
  | String _ _, EmptyString => false
  | String a p', String b s' => Ascii.eqb a b && startswith p' s'
  end.

(** [sub in s]: literal, case-sensitive containment. *)
Fixpoint contains (sub s : string) : bool :=
  startswith sub s ||
  match s with
  | EmptyString => false
  | String _ s' => contains sub s'
  end.

(** [c in s] for one character. *)
Fixpoint has_char (c : ascii) (s : string) : bool :=
  match s with
  | EmptyString => false
  | String d s' => Ascii.eqb c d || has_char c s'
  end.

(** [s.expandtabs()] with the default tab size 8; [col] is the current
    column, reset by a line feed or a carriage return. *)
Fixpoint expandtabs_from (col : nat) (s : string) : string :=
  match s with
  | EmptyString => EmptyString
  | String c s' =>
      if Ascii.eqb c tab_char then
        let incr := 8 - col mod 8 in
        spaces incr ++ expandtabs_from (col + incr) s'
      else if Ascii.eqb c nl_char || Ascii.eqb c cr_char then
        String c (expandtabs_from 0 s')
      else String c (expandtabs_from (S col) s')
  end.

Definition expandtabs (s : string) : string := expandtabs_from 0 s.

(** [s.split('\n')]: never the empty list. *)
Fixpoint split_lines (s : string) : list string :=
  match s with
  | EmptyString => [EmptyString]
  | String c s' =>
      if Ascii.eqb c nl_char then EmptyString :: split_lines s'
      else
        match split_lines s' with
        | [] => [String c EmptyString]
        | l :: ls => String c l :: ls
        end
  end.

(** [sep.join(parts)] *)
Fixpoint join (sep : string) (parts : list string) : string :=
  match parts with
  | [] => EmptyString
  | [p] => p
  | p :: ps => p ++ sep ++ join sep ps
  end.

Definition is_empty (s : string) : bool :=
  match s with
  | EmptyString => true
  | String _ _ => false
  end.

(** [while lines and not lines[0]: lines.pop(0)] *)
Fixpoint pop_leading_empty (lines : list string) : list string :=
  match lines with
  | [] => []
  | l :: ls => if is_empty l then pop_leading_empty ls else lines
  end.

(** [while lines and not lines[-1]: lines.pop()] *)
Fixpoint pop_trailing_empty (lines : list string) : list string :=
  match lines with
  | [] => []
  | l :: ls =>
      match pop_trailing_empty ls with
      | [] => if is_empty l then [] else [l]
      | ls' => l :: ls'
      end
  end.

(** The margin loop of [inspect.cleandoc]: the least indentation of the lines
    that are not blank; [None] is the [sys.maxsize] the loop starts from. *)
Definition margin_step (margin : option nat) (line : string) : option nat :=
  let content := String.length (lstrip line) in
  if (content =? 0)%nat then margin
  else
    let indent := String.length line - content in
    match margin with
    | None => Some indent
    | Some m => Some (Nat.min m indent)
    end.

(** [inspect.cleandoc(doc)]: tabs are expanded, the first line loses its
    leading white space, the later lines lose the margin they share, and the
    empty lines at both ends are dropped. *)
Definition cleandoc (doc : string) : string :=
  let lines := split_lines (expandtabs doc) in
  let margin := fold_left margin_step (tl lines) None in
  let lines :=
    match lines with
    | [] => []
    | first :: rest =>
        lstrip first ::
        match margin with
        | Some m => map (drop m) rest
        | None => rest
        end
    end in
  join nl (pop_leading_empty (pop_trailing_empty lines)).

(** [str(n)] for an [int]. *)
Definition str_int (z : Z) : string := NilZero.string_of_int (Z.to_int z).

Definition hex_digit (n : nat) : ascii :=
  if (n <? 10)%nat then ascii_of_nat (48 + n) else ascii_of_nat (87 + n).

(** Two lower-case hexadecimal digits of a character code. *)
Definition hex2 (c : ascii) : string :=
  let n := nat_of_ascii c in
  String (hex_digit (n / 16)) (String (hex_digit (n mod 16)) EmptyString).

(** One character of [repr(s)], for the quote character [q] chosen. *)
Definition repr_char (q c : ascii) : string :=
  if Ascii.eqb c q || Ascii.eqb c backslash_char then
    String backslash_char (String c EmptyString)
  else if Ascii.eqb c tab_char then String backslash_char "t"
  else if Ascii.eqb c nl_char then String backslash_char "n"
  else if Ascii.eqb c cr_char then String backslash_char "r"
  else
    let n := nat_of_ascii c in
    if ((n <? 32) || (126 <? n))%nat then String backslash_char ("x" ++ hex2 c)
    else String c EmptyString.

Fixpoint repr_body (q : ascii) (s : string) : string :=
  match s with
  | EmptyString => EmptyString
  | String c s' => repr_char q c ++ repr_body q s'
  end.

(** [repr(s)] for a [str]: single quotes, unless the text holds a single
    quote and no double quote. *)
Definition repr_str (s : string) : string :=
  let q :=
    if has_char squote_char s && negb (has_char dquote_char s)
    then dquote_char else squote_char in
  String q (repr_body q s ++ String q EmptyString).

(** [str(d)] for a [dict] from [str] to [int], in insertion order. *)
Definition str_dict (d : list (string * Z)) : string :=
  "{" ++ join ", " (map (fun kv => repr_str (fst kv) ++ ": " ++ str_int (snd kv)) d)
      ++ "}".

(** One character of a JSON string literal as [json.dumps] writes it
    ([ensure_ascii] is on). *)
Definition json_char (c : ascii) : string :=
  let n := nat_of_ascii c in
  if Ascii.eqb c dquote_char || Ascii.eqb c backslash_char then
    String backslash_char (String c EmptyString)
  else if Ascii.eqb c nl_char then String backslash_char "n"
  else if Ascii.eqb c cr_char then String backslash_char "r"
  else if Ascii.eqb c tab_char then String backslash_char "t"
  else if (n =? 8)%nat then String backslash_char "b"
  else if (n =? 12)%nat then String backslash_char "f"
  else if ((n <? 32) || (126 <? n))%nat then String backslash_char ("u00" ++ hex2 c)
  else String c EmptyString.

Fixpoint json_body (s : string) : string :=
  match s with
  | EmptyString => EmptyString
  | String c s' => json_char c ++ json_body s'
  end.

Definition json_string (s : string) : string := dquote ++ json_body s ++ dquote.

(** [json.dumps({"text": s})] *)
Definition json_dumps_text (s : string) : string :=
  "{" ++ json_string "text" ++ ": " ++ json_string s ++ "}".

Definition is_digit (c : ascii) : bool :=
  let n := nat_of_ascii c in ((48 <=? n) && (n <=? 57))%nat.

(** The white space that [int] skips around the digits of an ASCII text: the
    six characters of C's [isspace], tab to carriage return and the space.
    The separators 28..31 are not among them. *)
Definition is_c_space (c : ascii) : bool :=
  let n := nat_of_ascii c in
  (((9 <=? n) && (n <=? 13)) || (n =? 32))%nat.

Fixpoint skip_leading_spaces (s : string) : string :=
  match s with
  | EmptyString => EmptyString
  | String c s' => if is_c_space c then skip_leading_spaces s' else s
  end.

Fixpoint skip_trailing_spaces (s : string) : string :=
  match s with
  | EmptyString => EmptyString
  | String c s' =>
      match skip_trailing_spaces s' with
      | EmptyString => if is_c_space c then EmptyString else String c EmptyString
      | r => String c r
      end
  end.

(** [s[:n]] *)
Fixpoint take (n : nat) (s : string) : string :=
  match n, s with
  | O, _ => EmptyString
  | S _, EmptyString => EmptyString
  | S n', String c s' => String c (take n' s')
  end.

(** [c * n] for one character. *)
Fixpoint repeat_char (c : ascii) (n : nat) : string :=
  match n with
  | O => EmptyString
  | S n' => String c (repeat_char c n')
  end.

(** The digits of an [int] literal: at least one digit, single underscores
    only between digits. [prev] tells whether the last character read was a
    digit. *)
Fixpoint parse_digits (acc : Z) (prev : bool) (s : string) : option Z :=
  match s with
  | EmptyString => if prev then Some acc else None
  | String c s' =>
      if is_digit c then
        parse_digits (10 * acc + Z.of_nat (nat_of_ascii c - 48)) true s'
      else if Ascii.eqb c "_" then
        if prev then parse_digits acc false s' else None
      else None
  end.

(** The scan that [int] makes before it converts: the number of digits in
    the longest run of digits and single underscores at the start of [s];
    [None] when two underscores meet or the run ends with one. [underscore]
    tells whether the last character read was an underscore. *)
Fixpoint scan_digits (underscore : bool) (digits : nat) (s : string) : option nat :=
  match s with
  | EmptyString => if underscore then None else Some digits
  | String c s' =>
      if is_digit c then scan_digits false (S digits) s'
      else if Ascii.eqb c "_" then
        if underscore then None else scan_digits true digits s'
      else if underscore then None else Some digits
  end.

(** [sys.int_max_str_digits], at its default. *)
Definition int_max_str_digits : nat := 4300.

(** The text between the white space, and what follows its sign. *)
Definition int_literal (s : string) : string :=
  skip_trailing_spaces (skip_leading_spaces s).

Definition after_sign (literal : string) : string :=
  match literal with
  | String "-" s' => s'
  | String "+" s' => s'
  | s' => s'
  end.

(** Whether [int(s)] stops on the limit of digits: the literal does not
    start with an underscore and its run of digits is longer than the
    limit. *)
Definition exceeds_digit_limit (s : string) : option nat :=
  match after_sign (int_literal s) with
  | String "_" _ => None
  | body =>
      match scan_digits false 0 body with
      | Some digits => if (int_max_str_digits <? digits)%nat then Some digits else None
      | None => None
      end
  end.

(** [int(s)] for a [str] in base 10: white space around the literal is
    skipped, one sign is allowed, and a literal of more than 4300 digits is
    refused; [None] is the [ValueError]. *)
Definition int_of_str (s : string) : option Z :=
  match exceeds_digit_limit s with
  | Some _ => None
  | None =>
      match int_literal s with
      | String "-" s' => option_map Z.opp (parse_digits 0 false s')
      | String "+" s' => parse_digits 0 false s'
      | s' => parse_digits 0 false s'
      end
  end.

(** The message of the [ValueError] that [int(s)] raises. *)
Definition int_error (s : string) : string :=
  match exceeds_digit_limit s with
  | Some digits =>
      "Exceeds the limit (4300 digits) for integer string conversion: value has "
      ++ str_int (Z.of_nat digits)
      ++ " digits; use sys.set_int_max_str_digits() to increase the limit"
  | None => "invalid literal for int() with base 10: " ++ take 200 (repr_str s)
  end.

End Py.

(** ** Values, exceptions and the outside world *)

(** The Python values that reach the script from the command line. *)
Inductive PyVal : Type :=
| PyNone
| PyBool (b : bool)
| PyInt (z : Z)
| PyStr (s : string).

(** [bool(v)] *)
Definition truthy (v : PyVal) : bool :=
  match v with
  | PyNone => false
  | PyBool b => b
  | PyInt z => negb (z =? 0)%Z
  | PyStr s => negb (Py.is_empty s)
  end.

(** [str(v)], which is what ['{}'.format(v)] and ['%s' % v] write. *)
Definition py_str (v : PyVal) : string :=
  match v with
  | PyNone => "None"
  | PyBool true => "True"
  | PyBool false => "False"
  | PyInt z => Py.str_int z
  | PyStr s => s
  end.

Inductive Exn : Type :=
| ValueError (msg : string)
| KeyError (key : string)
| TypeError (msg : string)
| AttributeError (msg : string)
| RemoteError (kind msg : string).

Inductive Result (A : Type) : Type :=
| Ok (a : A)
| Raise (e : Exn).

Arguments Ok {A} a.
Arguments Raise {A} e.

(** [int(v)] *)
Definition py_int (v : PyVal) : Result Z :=
  match v with
  | PyNone => Raise (TypeError "int() argument must be a string, a bytes-like object or a number, not 'NoneType'")
  | PyBool b => Ok (if b then 1 else 0)%Z
  | PyInt z => Ok z
  | PyStr s =>
      match Py.int_of_str s with
      | Some z => Ok z
      | None => Raise (ValueError (Py.int_error s))
      end
  end.

(** What the remote services send back. *)
Record Credentials : Type := {
  AccessKeyId : string;
  SecretAccessKey : string;
  SessionToken : string
}.

(** The [dict] that [sts.assume_role] returns. *)
Record Session : Type := { session_Credentials : Credentials }.

(** The client object that [boto3.client('ecr', ...)] builds. *)
Record EcrClient : Type := {
  region_name : string;
  aws_access_key_id : string;
  aws_secret_access_key : string;
  aws_session_token : string
}.

Record Repository : Type := { repositoryName : string }.

(** One finding; every key may be missing. *)
Record Finding : Type := {
  name : option string;
  description : option string;
  severity : option string;
  uri : option string
}.

Record ImageScanFindings : Type := {
  findings : option (list Finding);
  findingSeverityCounts : option (list (string * Z))
}.

Record ScanFindingsResponse : Type := {
  imageScanFindings : option ImageScanFindings
}.

Record HttpResponse : Type := {
  status_code : Z;
  text : string
}.

(** The remote services, as the answers they give to each call. *)
Record Remote : Type := {
  sts_assume_role : string -> string -> Z -> Result Session;
  ecr_describe_repositories : EcrClient -> Result (list Repository);
  ecr_wait_image_scan_complete : EcrClient -> string -> string -> Z -> Z -> Result unit;
  ecr_describe_image_scan_findings :
    EcrClient -> string -> string -> PyVal -> Result ScanFindingsResponse;
  requests_post : string -> string -> list (string * string) -> Result HttpResponse
}.

(** [os.environ] *)
Definition Environ : Type := string -> option string.

(** [os.getenv(key, default)] *)
Definition getenv (environ : Environ) (key default : string) : string :=
  match environ key with
  | Some v => v
  | None => default
  end.

(** Everything the process does that can be seen from outside, oldest first. *)
Inductive Event : Type :=
| Print (line : string)
| StsAssumeRole (RoleArn RoleSessionName : string) (DurationSeconds : Z)
| EcrDescribeRepositories (client : EcrClient)
| EcrWaitImageScanComplete (client : EcrClient) (repository imageTag : string)
    (Delay MaxAttempts : Z)
| EcrDescribeImageScanFindings (client : EcrClient) (repository imageTag : string)
    (maxResults : PyVal)
| RequestsPost (url data : string) (headers : list (string * string)).

Definition is_remote_call (e : Event) : bool :=
  match e with
  | Print _ => false
  | _ => true
  end.

Definition is_http_post (e : Event) : bool :=
  match e with
  | RequestsPost _ _ _ => true
  | _ => false
  end.

(** ** The instance and the monad *)

(** The attributes of an [ECRScanChecker]; [None] in [aws_iam_session] and
    [aws_ecr_client] is the [''] of the class body. *)
Record Checker : Type := {
  aws_account_id : PyVal;
  iam_role_name : PyVal;
  aws_iam_session : option Session;
  aws_ecr_client : option EcrClient;
  images_to_check : list string;
  tag : string;
  report : string;
  report_limit : PyVal
}.

(** The class attributes, which a fresh instance reads. *)
Definition class_defaults : Checker := {|
  aws_account_id := PyStr "";
  iam_role_name := PyStr "";
  aws_iam_session := None;
  aws_ecr_client := None;
  images_to_check := [];
  tag := "";
  report := "";
  report_limit := PyStr ""
|}.

Record State : Type := {
  self : Checker;
  trace : list Event
}.

Definition initial_state : State := {| self := class_defaults; trace := [] |}.

(** A computation may change the state and then return or raise; what it
    changed before raising stays changed. *)
Definition M (A : Type) : Type := State -> Result A * State.

Definition ret {A : Type} (a : A) : M A := fun st => (Ok a, st).

Definition bind {A B : Type} (m : M A) (k : A -> M B) : M B :=
  fun st =>
    match m st with
    | (Ok a, st') => k a st'
    | (Raise e, st') => (Raise e, st')
    end.

Definition raise {A : Type} (e : Exn) : M A := fun st => (Raise e, st).

(** [try: body / except: handler] with a bare [except]. *)
Definition try_except {A : Type} (body handler : M A) : M A :=
  fun st =>
    match body st with
    | (Ok a, st') => (Ok a, st')
    | (Raise _, st') => handler st'
    end.

Declare Scope monad_scope.
Delimit Scope monad_scope with monad.
Notation "x <- m ;; k" := (bind m (fun x => k))
  (at level 61, m at next level, right associativity) : monad_scope.
Notation "m ;; k" := (bind m (fun _ => k))
  (at level 61, right associativity) : monad_scope.
Local Open Scope monad_scope.

Definition get_self : M Checker := fun st => (Ok (self st), st).

Definition modify_self (f : Checker -> Checker) : M unit :=
  fun st => (Ok tt, {| self := f (self st); trace := trace st |}).

Definition emit (e : Event) : M unit :=
  fun st => (Ok tt, {| self := self st; trace := (trace st ++ [e])%list |}).

(** A value computed outside the process, or the exception it raised. *)
Definition lift {A : Type} (r : Result A) : M A := fun st => (r, st).

(** [d[key]] *)
Definition lookup {A : Type} (key : string) (v : option A) : M A :=
  match v with
  | Some a => ret a
  | None => raise (KeyError key)
  end.

(** [for x in xs: body(x)] *)
Fixpoint for_each {X : Type} (xs : list X) (body : X -> M unit) : M unit :=
  match xs with
  | [] => ret tt
  | x :: xs' => body x ;; for_each xs' body
  end.

(** [print(line)] *)
Definition print (line : string) : M unit := emit (Print line).

(** Assignments to the attributes. *)
Definition set_iam_role_name (v : PyVal) (c : Checker) : Checker :=
  {| aws_account_id := aws_account_id c; iam_role_name := v;
     aws_iam_session := aws_iam_session c; aws_ecr_client := aws_ecr_client c;
     images_to_check := images_to_check c; tag := tag c; report := report c;
     report_limit := report_limit c |}.

Definition set_report_limit (v : PyVal) (c : Checker) : Checker :=
  {| aws_account_id := aws_account_id c; iam_role_name := iam_role_name c;
     aws_iam_session := aws_iam_session c; aws_ecr_client := aws_ecr_client c;
     images_to_check := images_to_check c; tag := tag c; report := report c;
     report_limit := v |}.

Definition set_aws_account_id (v : PyVal) (c : Checker) : Checker :=
  {| aws_account_id := v; iam_role_name := iam_role_name c;
     aws_iam_session := aws_iam_session c; aws_ecr_client := aws_ecr_client c;
     images_to_check := images_to_check c; tag := tag c; report := report c;
     report_limit := report_limit c |}.

Definition set_aws_iam_session (v : option Session) (c : Checker) : Checker :=
  {| aws_account_id := aws_account_id c; iam_role_name := iam_role_name c;
     aws_iam_session := v; aws_ecr_client := aws_ecr_client c;
     images_to_check := images_to_check c; tag := tag c; report := report c;
     report_limit := report_limit c |}.

Definition set_aws_ecr_client (v : option EcrClient) (c : Checker) : Checker :=
  {| aws_account_id := aws_account_id c; iam_role_name := iam_role_name c;
     aws_iam_session := aws_iam_session c; aws_ecr_client := v;
     images_to_check := images_to_check c; tag := tag c; report := report c;
     report_limit := report_limit c |}.

Definition set_images_to_check (v : list string) (c : Checker) : Checker :=
  {| aws_account_id := aws_account_id c; iam_role_name := iam_role_name c;
     aws_iam_session := aws_iam_session c; aws_ecr_client := aws_ecr_client c;
     images_to_check := v; tag := tag c; report := report c;
     report_limit := report_limit c |}.

Definition set_report (v : string) (c : Checker) : Checker :=
  {| aws_account_id := aws_account_id c; iam_role_name := iam_role_name c;
     aws_iam_session := aws_iam_session c; aws_ecr_client := aws_ecr_client c;
     images_to_check := images_to_check c; tag := tag c; report := v;
     report_limit := report_limit c |}.

(** ** The methods of [ECRScanChecker] *)

Section Program.

Variable remote : Remote.
Variable environ : Environ.

(** [self.aws_ecr_client.<method>]: the class attribute is a [str], which has
    none of the client's methods. *)
Definition ecr_client (method : string) : M EcrClient :=
  c <- get_self ;;
  match aws_ecr_client c with
  | Some client => ret client
  | None => raise (AttributeError ("'str' object has no attribute '" ++ method ++ "'"))
  end.

Definition set_iam_role_session : M unit :=
  c <- get_self ;;
  let role_arn :=
    "arn:aws:iam::" ++ py_str (aws_account_id c) ++ ":role/" ++ py_str (iam_role_name c) in
  emit (StsAssumeRole role_arn "checking_ecr_image_scan" 900) ;;
  session <- lift (sts_assume_role remote role_arn "checking_ecr_image_scan" 900) ;;
  modify_self (set_aws_iam_session (Some session)).

(** The loop of [get_repositories]: [images_to_check] grows at its end. *)
Definition keep_matching (search_term : string) (images : list string)
    (repository : Repository) : list string :=
  if Py.contains search_term (repositoryName repository)
  then (images ++ [repositoryName repository])%list
  else images.

Definition get_repositories (search_term : string) : M (list string) :=
  client <- ecr_client "describe_repositories" ;;
  emit (EcrDescribeRepositories client) ;;
  repositories <- lift (ecr_describe_repositories remote client) ;;
  ret (fold_left (keep_matching search_term) repositories []).

Definition wait_for_scan_completion (image tag : string) : M unit :=
  try_except
    (client <- ecr_client "get_waiter" ;;
     emit (EcrWaitImageScanComplete client image tag 5 60) ;;
     lift (ecr_wait_image_scan_complete remote client image tag 5 60))
    (print ("No ECR image scan results for image " ++ image ++ ", tag " ++ tag)).

Definition recursive_wait (tag : string) : M unit :=
  print "Waiting for ECR scans to complete..." ;;
  c <- get_self ;;
  for_each (images_to_check c) (fun image => wait_for_scan_completion image tag) ;;
  print "ECR image scans complete".

Definition get_ecr_scan_findings (image tag : string) : M ScanFindingsResponse :=
  client <- ecr_client "describe_image_scan_findings" ;;
  c <- get_self ;;
  emit (EcrDescribeImageScanFindings client image tag (report_limit c)) ;;
  lift (ecr_describe_image_scan_findings remote client image tag (report_limit c)).

(** The three texts that [recursive_check_make_report] formats. *)
Definition title_text (image : string) : string :=
  Py.nl ++ Py.nl ++ ":warning: *AWS ECR Scan found results for " ++ image ++ ":* " ++ Py.nl.

Definition severity_counts_text (counts : list (string * Z)) (limit : PyVal) : string :=
  Py.cleandoc
    ("Severity finding counts: " ++ Py.str_dict counts ++ Py.nl ++
     Py.spaces 38 ++ "Displaying the first " ++ py_str limit ++ " in order of severity" ++ Py.nl ++
     Py.nl ++
     Py.spaces 38).

Definition result_text (image tag severity cve description link : string) : string :=
  Py.cleandoc
    ("*Image:* " ++ image ++ Py.nl ++
     Py.spaces 34 ++ "**Tag:* " ++ tag ++ Py.nl ++
     Py.spaces 34 ++ "*Severity:* " ++ severity ++ Py.nl ++
     Py.spaces 34 ++ "*CVE:* " ++ cve ++ Py.nl ++
     Py.spaces 34 ++ "*Description:* " ++ description ++ Py.nl ++
     Py.spaces 34 ++ "*Link:* " ++ link ++ Py.nl ++
     Py.nl ++
     Py.spaces 34).

(** The text that goes into the description field of a finding's block. *)
Definition description_of (finding : Finding) : string :=
  match description finding with
  | Some d => d
  | None => "None"
  end.

(** The body of the inner loop: one finding's block is appended. *)
Definition append_finding (image tag : string) (finding : Finding) : M unit :=
  cve <- lookup "name" (name finding) ;;
  let description := description_of finding in
  severity <- lookup "severity" (severity finding) ;;
  link <- lookup "uri" (uri finding) ;;
  let result := result_text image tag severity cve description link in
  modify_self (fun c => set_report (report c ++ result) c).

(** The body of the outer loop, inside its [try]. *)
Definition check_image (image tag : string) : M unit :=
  response <- get_ecr_scan_findings image tag ;;
  scan <- lookup "imageScanFindings" (imageScanFindings response) ;;
  found <- lookup "findings" (findings scan) ;;
  match found with
  | [] => ret tt
  | _ :: _ =>
      counts <- lookup "findingSeverityCounts" (findingSeverityCounts scan) ;;
      c <- get_self ;;
      let title := title_text image in
      let severity_counts := severity_counts_text counts (report_limit c) in
      modify_self (set_report (title ++ severity_counts)) ;;
      for_each found (append_finding image tag) ;;
      c' <- get_self ;;
      print (report c')
  end.

Definition recursive_check_make_report (tag : string) : M unit :=
  print "Checking ECR scan results..." ;;
  c <- get_self ;;
  for_each (images_to_check c)
    (fun image =>
       try_except
         (check_image image tag)
         (print ("Unable to get ECR image scan results for image " ++ image ++ ", tag " ++ tag))).

Definition branch_info : string :=
  Py.nl ++ "*Github Branch:* " ++ getenv environ "CIRCLE_BRANCH" "" ++ Py.nl ++
  "*CircleCI Job Link:* " ++ getenv environ "CIRCLE_BUILD_URL" "" ++ Py.nl ++ Py.nl.

Definition finalise_report : M unit :=
  c <- get_self ;;
  if Py.is_empty (report c) then ret tt
  else
    modify_self (set_report (report c ++ branch_info)) ;;
    c' <- get_self ;;
    print (report c').

Definition post_to_slack (slack_webhook : string) : M unit :=
  c <- get_self ;;
  let post_data := Py.json_dumps_text (report c) in
  let headers := [("Content-Type", "application/json")] in
  emit (RequestsPost slack_webhook post_data headers) ;;
  response <- lift (requests_post remote slack_webhook post_data headers) ;;
  if (status_code response =? 200)%Z then ret tt
  else
    raise (ValueError ("Request to slack returned an error " ++ Py.str_int (status_code response)
                       ++ ", the response is:" ++ Py.nl ++ text response)).

(** [ECRScanChecker.__init__] *)
Definition __init__ (iam_role_name ecr_aws_account_id report_limit : PyVal)
    (search_term : string) : M unit :=
  modify_self (set_iam_role_name iam_role_name) ;;
  limit <- lift (py_int report_limit) ;;
  modify_self (set_report_limit (PyInt limit)) ;;
  modify_self (set_aws_account_id ecr_aws_account_id) ;;
  set_iam_role_session ;;
  c <- get_self ;;
  session <- match aws_iam_session c with
             | Some s => ret s
             | None => raise (TypeError "string indices must be integers")
             end ;;
  let credentials := session_Credentials session in
  modify_self (set_aws_ecr_client (Some {|
    region_name := "eu-west-1";
    aws_access_key_id := AccessKeyId credentials;
    aws_secret_access_key := SecretAccessKey credentials;
    aws_session_token := SessionToken credentials |})) ;;
  images <- get_repositories search_term ;;
  modify_self (set_images_to_check images).

(** ** The command line and [main] *)

(** What the user wrote for each option, if anything. *)
Record CommandLine : Type := {
  cli_iam_role_name : option string;
  cli_ecr_aws_account_id : option string;
  cli_search : option string;
  cli_tag : option string;
  cli_result_limit : option string;
  cli_slack_webhook : option string;
  cli_post_to_slack : option string
}.

(** The namespace that [parser.parse_args()] returns. *)
Record Args : Type := {
  args_iam_role_name : PyVal;
  args_ecr_aws_account_id : PyVal;
  args_search : string;
  args_tag : string;
  args_result_limit : PyVal;
  args_slack_webhook : option string;
  args_post_to_slack : PyVal
}.

(** No option has a [type], so a value from the command line stays a [str];
    an option that is not given takes its [default] ([None] without one). *)
Definition supplied (given : option string) (default : PyVal) : PyVal :=
  match given with
  | Some s => PyStr s
  | None => default
  end.

Definition parse_args (cl : CommandLine) : Args := {|
  args_iam_role_name := supplied (cli_iam_role_name cl) PyNone;
  args_ecr_aws_account_id := supplied (cli_ecr_aws_account_id cl) PyNone;
  args_search := match cli_search cl with Some s => s | None => "" end;
  args_tag := match cli_tag cl with Some s => s | None => "latest" end;
  args_result_limit := supplied (cli_result_limit cl) (PyInt 5);
  args_slack_webhook :=
    match cli_slack_webhook cl with
    | Some s => Some s
    | None => environ "SLACK_WEBHOOK"
    end;
  args_post_to_slack := supplied (cli_post_to_slack cl) (PyBool true)
|}.

(** The last statement of [main]. *)
Definition deliver (args : Args) : M unit :=
  match truthy (args_post_to_slack args), args_slack_webhook args with
  | true, Some slack_webhook => post_to_slack slack_webhook
  | _, _ => print "No slack webhook provided, skipping post of results to slack"
  end.

(** [main], from the construction of the checker on. *)
Definition run (args : Args) : M unit :=
  __init__ (args_iam_role_name args) (args_ecr_aws_account_id args)
           (args_result_limit args) (args_search args) ;;
  recursive_wait (args_tag args) ;;
  recursive_check_make_report (args_tag args) ;;
  finalise_report ;;
  deliver args.

Definition main (cl : CommandLine) : Result unit * State :=
  run (parse_args cl) initial_state.

End Program.

(** ** Specification-level notions *)

(** [sub] occurs in [s] as a literal substring. *)
Definition is_substring (sub s : string) : Prop :=
  exists before after : string, s = before ++ sub ++ after.

(** The findings that [check_image] turns into a report for one image: the
    fetch returned, with a list of findings that is not empty and with the
    severity counts. *)
Definition has_findings (remote : Remote) (c : Checker) (tag image : string) : bool :=
  match aws_ecr_client c with
  | None => false
  | Some client =>
      match ecr_describe_image_scan_findings remote client image tag (report_limit c) with
      | Raise _ => false
      | Ok response =>
          match imageScanFindings response with
          | None => false
          | Some scan =>
              match findings scan, findingSeverityCounts scan with
              | Some (_ :: _), Some _ => true
              | _, _ => false
              end
          end
      end
  end.

(** No tab and no line feed in a text. *)
Definition plain (s : string) : Prop :=
  Py.has_char Py.tab_char s = false /\ Py.has_char Py.nl_char s = false.

(** A line that is not empty and does not start with white space. *)
Definition starts_visible (s : string) : Prop :=
  match s with
  | EmptyString => False
  | String c _ => Py.is_space c = false
  end.


(** A text written with [indent] spaces before every line but the first and
    closed on a line of its own after an empty line, as the two templates of
    [recursive_check_make_report] are. *)
Definition indented_text (indent : nat) (first : string) (lines : list string) : string :=
  first ++ Py.nl ++
  Py.join Py.nl (map (fun l => Py.spaces indent ++ l) lines) ++ Py.nl ++
  Py.nl ++
  Py.spaces indent.

(** ** Sample runs *)

Module Sample.

Definition credentials : Credentials :=
  {| AccessKeyId := "AKIA"; SecretAccessKey := "secret"; SessionToken := "token" |}.

Definition client : EcrClient :=
  {| region_name := "eu-west-1"; aws_access_key_id := "AKIA";
     aws_secret_access_key := "secret"; aws_session_token := "token" |}.

Definition cve_1234 : Finding :=
  {| name := Some "CVE-1234"; description := None;
     severity := Some "HIGH"; uri := Some "http://x" |}.

Definition cve_77 : Finding :=
  {| name := Some "CVE-77"; description := Some "overflow in libz";
     severity := Some "LOW"; uri := Some "http://y" |}.



Definition scan_of (found : list Finding) (counts : list (string * Z)) : ScanFindingsResponse :=
  {| imageScanFindings :=
       Some {| findings := Some found; findingSeverityCounts := Some counts |} |}.

(** Four repositories: [svc-a] and [svc-c] have one finding each, the scan of
    [svc-b] does not exist, and [other] is outside the search. The webhook
    answers with [status]. *)
Definition remote (status : Z) : Remote := {|
  sts_assume_role := fun _ _ _ => Ok {| session_Credentials := credentials |};
  ecr_describe_repositories := fun _ =>
    Ok [ {| repositoryName := "svc-a" |}; {| repositoryName := "other" |};
         {| repositoryName := "svc-b" |}; {| repositoryName := "svc-c" |} ];
  ecr_wait_image_scan_complete := fun _ image _ _ _ =>
    if String.eqb image "svc-b" then Raise (RemoteError "WaiterError" "Max attempts exceeded")
    else Ok tt;
  ecr_describe_image_scan_findings := fun _ image _ _ =>
    if String.eqb image "svc-a" then Ok (scan_of [cve_1234] [("HIGH", 1%Z)])
    else if String.eqb image "svc-b" then
      Raise (RemoteError "ScanNotFoundException" "no scan for svc-b")
    else Ok (scan_of [cve_77] [("LOW", 1%Z)]);
  requests_post := fun _ _ _ => Ok {| status_code := status; text := "boom" |}
|}.

(** Every repository is scanned and clean. *)
Definition clean_remote : Remote := {|
  sts_assume_role := fun _ _ _ => Ok {| session_Credentials := credentials |};
  ecr_describe_repositories := fun _ =>
    Ok [ {| repositoryName := "svc-a" |}; {| repositoryName := "svc-b" |} ];
  ecr_wait_image_scan_complete := fun _ _ _ _ _ => Ok tt;
  ecr_describe_image_scan_findings := fun _ _ _ _ => Ok (scan_of [] []);
  requests_post := fun _ _ _ => Ok {| status_code := 200; text := "ok" |}
|}.


(** The answer to every fetch has no [imageScanFindings] key. *)
Definition keyless_remote : Remote := {|
  sts_assume_role := fun _ _ _ => Ok {| session_Credentials := credentials |};
  ecr_describe_repositories := fun _ => Ok [ {| repositoryName := "svc-a" |} ];
  ecr_wait_image_scan_complete := fun _ _ _ _ _ => Ok tt;
  ecr_describe_image_scan_findings := fun _ _ _ _ => Ok {| imageScanFindings := None |};
  requests_post := fun _ _ _ => Ok {| status_code := 200; text := "ok" |}
|}.

Definition no_environ : Environ := fun _ => None.

Definition ci_environ : Environ := fun key =>
  if String.eqb key "SLACK_WEBHOOK" then Some "https://hooks.example/T1"
  else if String.eqb key "CIRCLE_BRANCH" then Some "main"
  else None.

(** [--iam_role_name ci --ecr_aws_account_id 123 --search svc] *)
Definition command_line : CommandLine := {|
  cli_iam_role_name := Some "ci";
  cli_ecr_aws_account_id := Some "123";
  cli_search := Some "svc";
  cli_tag := None;
  cli_result_limit := None;
  cli_slack_webhook := None;
  cli_post_to_slack := None
|}.

(** The same with [--post_to_slack <value>]. *)
Definition with_post_to_slack (value : string) : CommandLine := {|
  cli_iam_role_name := Some "ci";
  cli_ecr_aws_account_id := Some "123";
  cli_search := Some "svc";
  cli_tag := None;
  cli_result_limit := None;
  cli_slack_webhook := None;
  cli_post_to_slack := Some value
|}.

(** The same with [--result_limit <value>]. *)
Definition with_result_limit (value : string) : CommandLine := {|
  cli_iam_role_name := Some "ci";
  cli_ecr_aws_account_id := Some "123";
  cli_search := Some "svc";
  cli_tag := None;
  cli_result_limit := Some value;
  cli_slack_webhook := None;
  cli_post_to_slack := None
|}.

(** A constructed checker, before the waits. *)
Definition constructed (images : list string) (text : string) : State := {|
  self := {|
    aws_account_id := PyStr "123";
    iam_role_name := PyStr "ci";
    aws_iam_session := Some {| session_Credentials := credentials |};
    aws_ecr_client := Some client;
    images_to_check := images;
    tag := "";
    report := text;
    report_limit := PyInt 5
  |};
  trace := []
|}.

End Sample.

(** ** Notions used for the report of one repository *)

(** The block of a finding that has the three keys the inner loop reads;
    [None] when one of them is missing. *)
Definition finding_block (image tag : string) (finding : Finding) : option string :=
  match name finding, severity finding, uri finding with
  | Some cve, Some sev, Some link =>
      Some (result_text image tag sev cve (description_of finding) link)
  | _, _, _ => None
  end.

(** The blocks of the findings one after the other, up to the first finding
    with a missing key. *)
Fixpoint blocks_text (image tag : string) (found : list Finding) : string :=
  match found with
  | [] => ""
  | finding :: rest =>
      match finding_block image tag finding with
      | Some block => block ++ blocks_text image tag rest
      | None => ""
      end
  end.

(** Every finding has its three keys. *)
Definition all_complete (found : list Finding) : bool :=
  forallb (fun finding =>
             match name finding, severity finding, uri finding with
             | Some _, Some _, Some _ => true
             | _, _, _ => false
             end) found.

(** One round of the outer loop of [recursive_check_make_report], with its
    [try] and its handler. *)
Definition check_round (remote : Remote) (tag image : string) : M unit :=
  try_except (check_image remote image tag)
    (print ("Unable to get ECR image scan results for image " ++ image ++ ", tag " ++ tag)).

(** ** Facts about the string functions *)

Lemma append_empty_r (s : string) : s ++ "" = s.
Proof. induction s as [|c s IH]; simpl; [reflexivity | now rewrite IH]. Qed.

Lemma append_assoc (a b c : string) : (a ++ b) ++ c = a ++ (b ++ c).
Proof. induction a as [|x a IH]; simpl; [reflexivity | now rewrite IH]. Qed.

Lemma startswith_spec (p s : string) :
  Py.startswith p s = true <-> exists rest, s = p ++ rest.
Proof.
  revert s; induction p as [|a p IH]; intros s; simpl.
  - split; [intros _; now exists s | reflexivity].
  - destruct s as [|b s].
    + split; [discriminate | intros [rest H]; discriminate].
    + rewrite andb_true_iff, Ascii.eqb_eq, IH. split.
      * intros [-> [rest ->]]. now exists rest.
      * intros [rest H]. injection H as -> ->. split; [reflexivity | now exists rest].
Qed.

Lemma contains_spec (sub s : string) :
  Py.contains sub s = true <-> is_substring sub s.
Proof.
  unfold is_substring. induction s as [|c s IH].
  - simpl. rewrite orb_false_r, startswith_spec. split.
    + intros [rest H]. now exists "", rest.
    + intros [before [after H]]. destruct before; simpl in H.
      * now exists after.
      * discriminate.
  - cbn [Py.contains]. rewrite orb_true_iff, startswith_spec, IH. split.
    + intros [[rest H] | [before [after H]]].
      * now exists "", rest.
      * exists (String c before), after. simpl. now rewrite H.
    + intros [before [after H]]. destruct before as [|b before]; simpl in H.
      * left. now exists after.
      * right. injection H as _ H. now exists before, after.
Qed.

Lemma contains_empty (s : string) : Py.contains "" s = true.
Proof. destruct s; reflexivity. Qed.

Lemma keep_matching_fold (search_term : string) (repositories : list Repository)
    (images : list string) :
  fold_left (keep_matching search_term) repositories images
  = (images ++ filter (Py.contains search_term) (map repositoryName repositories))%list.
Proof.
  revert images; induction repositories as [|r rs IH]; intros images; simpl.
  - now rewrite app_nil_r.
  - rewrite IH. unfold keep_matching.
    destruct (Py.contains search_term (repositoryName r)); [|reflexivity].
    now rewrite <- app_assoc.
Qed.

(** ** Repository discovery *)

Lemma filter_all {A : Type} (f : A -> bool) (l : list A) :
  (forall x, f x = true) -> filter f l = l.
Proof.
  intros H; induction l as [|x l IH]; simpl; [reflexivity|].
  now rewrite H, IH.
Qed.

(** C5. When the listing call returns, [get_repositories] returns the names
    that contain the search term as a literal substring and no other name,
    in the order of the listing; the empty search term keeps every name. *)
Theorem get_repositories_filters (remote : Remote) (search_term : string) (st : State)
    (client : EcrClient) (repositories : list Repository) :
  aws_ecr_client (self st) = Some client ->
  ecr_describe_repositories remote client = Ok repositories ->
  exists (images : list string) (st' : State),
    get_repositories remote search_term st = (Ok images, st') /\
    images = filter (Py.contains search_term) (map repositoryName repositories) /\
    (forall n, In n images <->
               In n (map repositoryName repositories) /\ is_substring search_term n) /\
    (search_term = "" -> images = map repositoryName repositories).
Proof.
  intros Hclient Hlist.
  exists (filter (Py.contains search_term) (map repositoryName repositories)).
  eexists. split; [|split; [reflexivity|split]].
  - unfold get_repositories, ecr_client, bind, get_self, emit, lift, ret.
    rewrite Hclient. cbn. rewrite Hlist. rewrite keep_matching_fold. reflexivity.
  - intros n. rewrite filter_In, contains_spec. reflexivity.
  - intros ->. apply filter_all, contains_empty.
Qed.

Lemma get_repositories_filters_witness :
  exists (images : list string) (st' : State),
    get_repositories (Sample.remote 200) "svc" (Sample.constructed [] "")
    = (Ok images, st') /\
    images = ["svc-a"; "svc-b"; "svc-c"].
Proof.
  destruct (get_repositories_filters (Sample.remote 200) "svc" (Sample.constructed [] "")
              Sample.client _ eq_refl eq_refl)
    as [images [st' [Hrun [Himages _]]]].
  exists images, st'. split; [exact Hrun | exact Himages].
Defined.

(** ** Delivery to the webhook *)

Lemma is_empty_spec (s : string) : Py.is_empty s = true <-> s = "".
Proof. destruct s; simpl; split; congruence. Qed.

(** C4. Whatever the webhook answers, [post_to_slack] raises a [ValueError]
    whose message holds the status code and the body of the response when
    the status is not 200, and returns when it is 200. *)
Theorem post_to_slack_status (remote : Remote) (slack_webhook : string) (st : State)
    (response : HttpResponse) :
  requests_post remote slack_webhook (Py.json_dumps_text (report (self st)))
    [("Content-Type", "application/json")] = Ok response ->
  (status_code response <> 200%Z ->
   fst (post_to_slack remote slack_webhook st)
   = Raise (ValueError ("Request to slack returned an error "
                        ++ Py.str_int (status_code response)
                        ++ ", the response is:" ++ Py.nl ++ text response))) /\
  (status_code response = 200%Z ->
   fst (post_to_slack remote slack_webhook st) = Ok tt).
Proof.
  intros Hpost.
  unfold post_to_slack, bind, get_self, emit, lift, ret, raise. cbn [self trace fst snd].
  rewrite Hpost. split; intros Hstatus.
  - apply Z.eqb_neq in Hstatus. now rewrite Hstatus.
  - apply Z.eqb_eq in Hstatus. now rewrite Hstatus.
Qed.

Lemma post_to_slack_status_witness :
  fst (post_to_slack (Sample.remote 500) "https://hooks.example/T1"
         (Sample.constructed [] "report"))
  = Raise (ValueError ("Request to slack returned an error 500, the response is:"
                       ++ Py.nl ++ "boom")) /\
  fst (post_to_slack (Sample.remote 200) "https://hooks.example/T1"
         (Sample.constructed [] "report"))
  = Ok tt.
Proof.
  split.
  - apply (proj1 (post_to_slack_status (Sample.remote 500) "https://hooks.example/T1"
                    (Sample.constructed [] "report") _ eq_refl)).
    discriminate.
  - apply (proj2 (post_to_slack_status (Sample.remote 200) "https://hooks.example/T1"
                    (Sample.constructed [] "report") _ eq_refl)).
    reflexivity.
Defined.

(** ** The closing block *)

(** C8. [finalise_report] never raises. When the report is not empty it
    appends the block with the branch and the build link, each taken from
    the environment or empty when the variable is not set, and prints the
    report; when the report is empty nothing changes. *)
Theorem finalise_report_appends (environ : Environ) (st : State) :
  fst (finalise_report environ st) = Ok tt /\
  (report (self st) <> "" ->
   let block :=
     Py.nl ++ "*Github Branch:* "
     ++ match environ "CIRCLE_BRANCH" with Some v => v | None => "" end
     ++ Py.nl ++ "*CircleCI Job Link:* "
     ++ match environ "CIRCLE_BUILD_URL" with Some v => v | None => "" end
     ++ Py.nl ++ Py.nl in
   snd (finalise_report environ st)
   = {| self := set_report (report (self st) ++ block) (self st);
        trace := (trace st ++ [Print (report (self st) ++ block)])%list |}) /\
  (report (self st) = "" -> snd (finalise_report environ st) = st).
Proof.
  destruct st as [c tr]. unfold finalise_report, bind, get_self. cbn.
  destruct (Py.is_empty (report c)) eqn:Hempty.
  - apply is_empty_spec in Hempty. repeat split; cbn; congruence.
  - assert (report c <> "") by (intros H; apply is_empty_spec in H; congruence).
    repeat split; cbn; congruence.
Qed.

Lemma finalise_report_appends_witness :
  snd (finalise_report Sample.ci_environ (Sample.constructed [] "findings"))
  = {| self := set_report ("findings" ++ Py.nl ++ "*Github Branch:* main" ++ Py.nl
                           ++ "*CircleCI Job Link:* " ++ Py.nl ++ Py.nl)
                 (self (Sample.constructed [] "findings"));
       trace := [Print ("findings" ++ Py.nl ++ "*Github Branch:* main" ++ Py.nl
                        ++ "*CircleCI Job Link:* " ++ Py.nl ++ Py.nl)] |} /\
  snd (finalise_report Sample.no_environ (Sample.constructed [] ""))
  = Sample.constructed [] "".
Proof.
  split.
  - apply (proj1 (proj2 (finalise_report_appends Sample.ci_environ
                           (Sample.constructed [] "findings")))).
    discriminate.
  - apply (proj2 (proj2 (finalise_report_appends Sample.no_environ
                           (Sample.constructed [] "")))).
    reflexivity.
Defined.

(** ** Construction *)

(** C10. A result limit that [int] cannot read (a text that is no integer
    literal, or one of more than 4300 digits) makes [__init__] raise a
    [ValueError] right after the role name is stored: the trace is the one
    it started from, so no session is asked for, no repository is listed
    and no other remote call is made. From the command line, [main] ends
    with that error and an empty trace. *)
Theorem init_rejects_unreadable_limit (remote : Remote) (s : string) :
  Py.int_of_str s = None ->
  (forall (iam_role_name ecr_aws_account_id : PyVal) (search_term : string) (st : State),
      exists msg,
        __init__ remote iam_role_name ecr_aws_account_id (PyStr s) search_term st
        = (Raise (ValueError msg),
           {| self := set_iam_role_name iam_role_name (self st); trace := trace st |})) /\
  (forall (environ : Environ) (cl : CommandLine),
      cli_result_limit cl = Some s ->
      exists msg st',
        main remote environ cl = (Raise (ValueError msg), st') /\ trace st' = []).
Proof.
  intros Hint.
  assert (Hinit : forall iam acct search st,
             __init__ remote iam acct (PyStr s) search st
             = (Raise (ValueError (Py.int_error s)),
                {| self := set_iam_role_name iam (self st); trace := trace st |})).
  { intros iam acct search st.
    unfold __init__, bind, modify_self, lift, py_int. rewrite Hint. reflexivity. }
  split.
  - intros iam acct search st. exists (Py.int_error s). apply Hinit.
  - intros environ cl Hcl. do 2 eexists.
    unfold main, run, bind. cbn [parse_args args_result_limit args_iam_role_name
      args_ecr_aws_account_id args_search]. rewrite Hcl. cbn [supplied].
    rewrite Hinit. split; reflexivity.
Qed.

Lemma init_rejects_unreadable_limit_witness :
  (exists msg st',
      main (Sample.remote 200) Sample.ci_environ (Sample.with_result_limit "five")
      = (Raise (ValueError msg), st') /\ trace st' = []) /\
  (exists msg st',
      main (Sample.remote 200) Sample.ci_environ
        (Sample.with_result_limit (String (ascii_of_nat 28) "5"))
      = (Raise (ValueError msg), st') /\ trace st' = []) /\
  (exists msg st',
      main (Sample.remote 200) Sample.ci_environ
        (Sample.with_result_limit (Py.repeat_char "1" 4301))
      = (Raise (ValueError msg), st') /\ trace st' = []).
Proof.
  split; [|split].
  - apply (proj2 (init_rejects_unreadable_limit (Sample.remote 200) "five" eq_refl)
             Sample.ci_environ (Sample.with_result_limit "five") eq_refl).
  - apply (proj2 (init_rejects_unreadable_limit (Sample.remote 200)
                    (String (ascii_of_nat 28) "5") eq_refl)
             Sample.ci_environ (Sample.with_result_limit (String (ascii_of_nat 28) "5"))
             eq_refl).
  - assert (Hlimit : Py.int_of_str (Py.repeat_char "1" 4301) = None)
      by (vm_compute; reflexivity).
    apply (proj2 (init_rejects_unreadable_limit (Sample.remote 200)
                    (Py.repeat_char "1" 4301) Hlimit)
             Sample.ci_environ (Sample.with_result_limit (Py.repeat_char "1" 4301))
             eq_refl).
Defined.

(** ** The two loops over the repositories *)

Lemma set_report_same (c : Checker) : set_report (report c) c = c.
Proof. now destruct c. Qed.

Lemma state_eta (st : State) : {| self := self st; trace := trace st |} = st.
Proof. now destruct st. Qed.

Lemma for_each_app {X : Type} (xs ys : list X) (body : X -> M unit) (st : State) :
  for_each (xs ++ ys) body st
  = match for_each xs body st with
    | (Ok _, st') => for_each ys body st'
    | (Raise e, st') => (Raise e, st')
    end.
Proof.
  revert st; induction xs as [|x xs IH]; intros st; simpl; [reflexivity|].
  unfold bind. destruct (body x st) as [[[]|e] st']; [apply IH | reflexivity].
Qed.

(** A [try] whose handler only prints cannot raise. *)
Lemma try_except_print_returns (body : M unit) (line : string) (st : State) :
  exists st', try_except body (print line) st = (Ok tt, st').
Proof.
  unfold try_except. destruct (body st) as [[[]|e] st']; eexists; reflexivity.
Qed.

Lemma for_each_returns {X : Type} (body : X -> M unit) (xs : list X) :
  (forall x st, exists st', body x st = (Ok tt, st')) ->
  forall st, exists st', for_each xs body st = (Ok tt, st').
Proof.
  intros Hbody. induction xs as [|x xs IH]; intros st; simpl.
  - now exists st.
  - unfold bind. destruct (Hbody x st) as [st' ->]. apply IH.
Qed.

Lemma wait_for_scan_completion_run (remote : Remote) (image tag : string) (st : State)
    (client : EcrClient) :
  aws_ecr_client (self st) = Some client ->
  wait_for_scan_completion remote image tag st
  = (Ok tt,
     {| self := self st;
        trace := (trace st ++
                  EcrWaitImageScanComplete client image tag 5 60 ::
                  match ecr_wait_image_scan_complete remote client image tag 5 60 with
                  | Ok _ => []
                  | Raise _ =>
                      [Print ("No ECR image scan results for image " ++ image
                              ++ ", tag " ++ tag)]
                  end)%list |}).
Proof.
  intros Hclient.
  unfold wait_for_scan_completion, try_except, ecr_client, bind, get_self, emit, lift, print, ret.
  rewrite Hclient. cbn [self trace].
  destruct (ecr_wait_image_scan_complete remote client image tag 5 60) as [[]|e].
  - reflexivity.
  - unfold emit. cbn [self trace]. now rewrite <- app_assoc.
Qed.

Lemma wait_loop_run (remote : Remote) (tag : string) (client : EcrClient)
    (images : list string) (st : State) :
  aws_ecr_client (self st) = Some client ->
  exists new,
    for_each images (fun image => wait_for_scan_completion remote image tag) st
    = (Ok tt, {| self := self st; trace := (trace st ++ new)%list |}) /\
    filter is_remote_call new
    = map (fun image => EcrWaitImageScanComplete client image tag 5 60) images.
Proof.
  intros Hclient. revert st Hclient. induction images as [|image images IH]; intros st Hclient.
  - exists []. simpl. rewrite app_nil_r, state_eta. split; reflexivity.
  - simpl. unfold bind. rewrite (wait_for_scan_completion_run _ _ _ _ _ Hclient).
    match goal with
    | |- context [for_each _ _ ?s] => destruct (IH s Hclient) as [new [-> Hcalls]]
    end.
    clear IH. cbn [self trace]. eexists. rewrite <- app_assoc. split; [reflexivity|].
    cbn [app filter is_remote_call map]. f_equal.
    rewrite filter_app, Hcalls.
    now destruct (ecr_wait_image_scan_complete remote client image tag 5 60).
Qed.

(** The inner loop only extends the report. *)
Lemma append_findings_run (image tag : string) (found : list Finding) (st : State) :
  exists r suffix,
    for_each found (append_finding image tag) st
    = (r, {| self := set_report (report (self st) ++ suffix) (self st);
             trace := trace st |}).
Proof.
  revert st; induction found as [|finding found IH]; intros st.
  - exists (Ok tt), "". simpl. unfold ret.
    now rewrite append_empty_r, set_report_same, state_eta.
  - simpl. unfold bind at 1. unfold append_finding, bind, lookup, modify_self, ret, raise.
    destruct (name finding) as [cve|]; [|].
    2:{ exists (Raise (KeyError "name")), "".
        now rewrite append_empty_r, set_report_same, state_eta. }
    destruct (severity finding) as [sev|].
    2:{ exists (Raise (KeyError "severity")), "".
        now rewrite append_empty_r, set_report_same, state_eta. }
    destruct (uri finding) as [link|].
    2:{ exists (Raise (KeyError "uri")), "".
        now rewrite append_empty_r, set_report_same, state_eta. }
    edestruct IH as [r [suffix ->]]. cbn [self trace report set_report].
    exists r. eexists. rewrite append_assoc. reflexivity.
Qed.

Lemma title_text_nonempty (image rest : string) : title_text image ++ rest <> "".
Proof. unfold title_text. simpl. discriminate. Qed.

(** One round of the outer loop of [recursive_check_make_report]: it returns,
    only the report can change, and the fetch is the only remote call. *)
Lemma check_image_guarded_run (remote : Remote) (image tag : string) (st : State) :
  exists r new,
    try_except (check_image remote image tag)
      (print ("Unable to get ECR image scan results for image " ++ image ++ ", tag " ++ tag))
      st
    = (Ok tt, {| self := set_report r (self st); trace := (trace st ++ new)%list |}) /\
    filter is_http_post new = [] /\
    (forall client, aws_ecr_client (self st) = Some client ->
       filter is_remote_call new
       = [EcrDescribeImageScanFindings client image tag (report_limit (self st))] /\
       (forall e,
           ecr_describe_image_scan_findings remote client image tag (report_limit (self st))
           = Raise e ->
           new = [EcrDescribeImageScanFindings client image tag (report_limit (self st));
                  Print ("Unable to get ECR image scan results for image " ++ image
                         ++ ", tag " ++ tag)] /\
           r = report (self st))) /\
    (has_findings remote (self st) tag image = true -> r <> "") /\
    (has_findings remote (self st) tag image = false -> r = report (self st)).
Proof.
  unfold check_image, get_ecr_scan_findings, ecr_client, try_except, bind, get_self,
    lookup, ret, raise, print, modify_self, lift, emit, has_findings.
  cbn [self trace].
  destruct (aws_ecr_client (self st)) as [client|] eqn:Hclient.
  2:{ exists (report (self st)). eexists. rewrite set_report_same.
      split; [reflexivity|]. repeat split; try reflexivity; try discriminate. }
  cbn [self trace].
  destruct (ecr_describe_image_scan_findings remote client image tag (report_limit (self st)))
    as [response|e] eqn:Hfetch.
  2:{ exists (report (self st)). eexists. cbn [self trace].
      rewrite set_report_same, <- app_assoc.
      split; [reflexivity|]. split; [reflexivity|]. split; [|split; [discriminate|reflexivity]].
      intros client' [= <-]. split; [reflexivity|]. intros e' _. split; reflexivity. }
  cbn [self trace].
  destruct (imageScanFindings response) as [scan|].
  2:{ exists (report (self st)). eexists. cbn [self trace].
      rewrite set_report_same, <- app_assoc.
      split; [reflexivity|]. split; [reflexivity|]. split; [|split; [discriminate|reflexivity]].
      intros client' [= <-]. split; [reflexivity|]. intros e' He; congruence. }
  cbn [self trace].
  destruct (findings scan) as [found|].
  2:{ exists (report (self st)). eexists. cbn [self trace].
      rewrite set_report_same, <- app_assoc.
      split; [reflexivity|]. split; [reflexivity|]. split; [|split; [discriminate|reflexivity]].
      intros client' [= <-]. split; [reflexivity|]. intros e' He; congruence. }
  cbn [self trace].
  destruct found as [|finding found].
  { exists (report (self st)). eexists. cbn [self trace].
    rewrite set_report_same.
    split; [reflexivity|]. split; [reflexivity|]. split; [|split; [discriminate|reflexivity]].
    intros client' [= <-]. split; [reflexivity|]. intros e' He; congruence. }
  cbn [self trace].
  destruct (findingSeverityCounts scan) as [counts|].
  2:{ exists (report (self st)). eexists. cbn [self trace].
      rewrite set_report_same, <- app_assoc.
      split; [reflexivity|]. split; [reflexivity|]. split; [|split; [discriminate|reflexivity]].
      intros client' [= <-]. split; [reflexivity|]. intros e' He; congruence. }
  cbn [self trace].
  match goal with
  | |- context [for_each ?fs ?body ?s] =>
      destruct (append_findings_run image tag fs s) as [res [suffix Hrun]]
  end.
  rewrite Hrun. cbn [self trace report set_report].
  exists ((title_text image ++ severity_counts_text counts (report_limit (self st))) ++ suffix).
  destruct res as [[]|e]; eexists; cbn [self trace report set_report]; rewrite <- app_assoc.
  - split; [reflexivity|]. split; [reflexivity|].
    split; [|split; [intros _; rewrite append_assoc; apply title_text_nonempty|discriminate]].
    intros client' [= <-]. split; [reflexivity|]. intros e' He; congruence.
  - split; [reflexivity|]. split; [reflexivity|].
    split; [|split; [intros _; rewrite append_assoc; apply title_text_nonempty|discriminate]].
    intros client' [= <-]. split; [reflexivity|]. intros e' He; congruence.
Qed.

(** The outer loop of [recursive_check_make_report]. *)
Lemma check_loop_run (remote : Remote) (tag : string) (images : list string) (st : State) :
  exists r new,
    for_each images
      (fun image =>
         try_except (check_image remote image tag)
           (print ("Unable to get ECR image scan results for image " ++ image
                   ++ ", tag " ++ tag))) st
    = (Ok tt, {| self := set_report r (self st); trace := (trace st ++ new)%list |}) /\
    filter is_http_post new = [] /\
    (forall client, aws_ecr_client (self st) = Some client ->
       filter is_remote_call new
       = map (fun image =>
                EcrDescribeImageScanFindings client image tag (report_limit (self st)))
             images) /\
    (r <> "" <->
     report (self st) <> "" \/
     exists image, In image images /\ has_findings remote (self st) tag image = true).
Proof.
  revert st. induction images as [|image images IH]; intros st.
  - exists (report (self st)), []. cbn [for_each]. unfold ret.
    rewrite set_report_same, app_nil_r, state_eta.
    repeat split; try reflexivity.
    + now left.
    + intros [H | [image [[] _]]]. exact H.
  - cbn [for_each]. unfold bind at 1.
    destruct (check_image_guarded_run remote image tag st)
      as [r1 [new1 [-> [Hpost1 [Hcalls1 [Hsome1 Hnone1]]]]]].
    match goal with
    | |- context [for_each _ _ ?s] =>
        destruct (IH s) as [r2 [new2 [-> [Hpost2 [Hcalls2 Hiff2]]]]]
    end.
    clear IH. cbn [self trace] in *.
    exists r2, (new1 ++ new2)%list. rewrite <- app_assoc.
    split; [reflexivity|]. split; [|split].
    + now rewrite filter_app, Hpost1, Hpost2.
    + intros client Hclient. rewrite filter_app.
      rewrite (proj1 (Hcalls1 client Hclient)), (Hcalls2 client Hclient). reflexivity.
    + rewrite Hiff2. cbn [report set_report].
      destruct (has_findings remote (self st) tag image) eqn:Hhas.
      * specialize (Hsome1 eq_refl). split.
        -- intros _. right. exists image. split; [now left | exact Hhas].
        -- intros _. now left.
      * specialize (Hnone1 eq_refl). subst r1. split.
        -- intros [H | [i [Hin Hi]]]; [now left|]. right. exists i. split; [now right|exact Hi].
        -- intros [H | [i [[<- | Hin] Hi]]]; [now left | congruence |].
           right. exists i. split; assumption.
Qed.

Lemma wait_loop_split (remote : Remote) (tag : string) (client : EcrClient)
    (before : list string) (image : string) (after : list string) (st : State) (e : Exn) :
  aws_ecr_client (self st) = Some client ->
  ecr_wait_image_scan_complete remote client image tag 5 60 = Raise e ->
  exists earlier later,
    for_each (before ++ image :: after)
      (fun image => wait_for_scan_completion remote image tag) st
    = (Ok tt,
       {| self := self st;
          trace := (trace st ++ earlier ++
                    [EcrWaitImageScanComplete client image tag 5 60;
                     Print ("No ECR image scan results for image " ++ image
                            ++ ", tag " ++ tag)] ++ later)%list |}) /\
    filter is_remote_call later
    = map (fun image => EcrWaitImageScanComplete client image tag 5 60) after.
Proof.
  intros Hclient Hwait. rewrite for_each_app.
  destruct (wait_loop_run remote tag client before st Hclient) as [earlier [-> _]].
  cbn [for_each]. unfold bind.
  match goal with
  | |- context [wait_for_scan_completion _ _ _ ?s] =>
      rewrite (wait_for_scan_completion_run remote image tag s client Hclient), Hwait
  end.
  match goal with
  | |- context [for_each _ _ ?s] =>
      destruct (wait_loop_run remote tag client after s Hclient) as [later [-> Hcalls]]
  end.
  cbn [self trace]. exists earlier, later. split; [|exact Hcalls].
  now rewrite <- !app_assoc.
Qed.

Lemma check_loop_split (remote : Remote) (tag : string) (client : EcrClient)
    (before : list string) (image : string) (after : list string) (st : State) (e : Exn) :
  aws_ecr_client (self st) = Some client ->
  ecr_describe_image_scan_findings remote client image tag (report_limit (self st)) = Raise e ->
  exists r earlier later,
    for_each (before ++ image :: after)
      (fun image =>
         try_except (check_image remote image tag)
           (print ("Unable to get ECR image scan results for image " ++ image
                   ++ ", tag " ++ tag))) st
    = (Ok tt,
       {| self := set_report r (self st);
          trace := (trace st ++ earlier ++
                    [EcrDescribeImageScanFindings client image tag (report_limit (self st));
                     Print ("Unable to get ECR image scan results for image " ++ image
                            ++ ", tag " ++ tag)] ++ later)%list |}) /\
    filter is_remote_call later
    = map (fun image =>
             EcrDescribeImageScanFindings client image tag (report_limit (self st))) after.
Proof.
  intros Hclient Hfetch. rewrite for_each_app.
  destruct (check_loop_run remote tag before st) as [r0 [earlier [-> _]]].
  cbn [for_each]. unfold bind at 1.
  match goal with
  | |- context [try_except _ _ ?s] =>
      destruct (check_image_guarded_run remote image tag s)
        as [r1 [new1 [-> [_ [Hcalls1 _]]]]];
      destruct (Hcalls1 client Hclient) as [_ Hraise];
      destruct (Hraise e Hfetch) as [-> ->]
  end.
  match goal with
  | |- context [for_each _ _ ?s] =>
      destruct (check_loop_run remote tag after s) as [r2 [later [-> [_ [Hcalls2 _]]]]]
  end.
  cbn [self trace report set_report] in *.
  exists r2, earlier, later. split; [|exact (Hcalls2 client Hclient)].
  now rewrite <- !app_assoc.
Qed.

Lemma recursive_wait_unfold (remote : Remote) (tag : string) (st : State) :
  recursive_wait remote tag st
  = match
      for_each (images_to_check (self st))
        (fun image => wait_for_scan_completion remote image tag)
        {| self := self st;
           trace := (trace st ++ [Print "Waiting for ECR scans to complete..."])%list |}
    with
    | (Ok _, st') =>
        (Ok tt,
         {| self := self st';
            trace := (trace st' ++ [Print "ECR image scans complete"])%list |})
    | (Raise e, st') => (Raise e, st')
    end.
Proof. reflexivity. Qed.

Lemma recursive_check_make_report_unfold (remote : Remote) (tag : string) (st : State) :
  recursive_check_make_report remote tag st
  = for_each (images_to_check (self st))
      (fun image =>
         try_except (check_image remote image tag)
           (print ("Unable to get ECR image scan results for image " ++ image
                   ++ ", tag " ++ tag)))
      {| self := self st;
         trace := (trace st ++ [Print "Checking ECR scan results..."])%list |}.
Proof. reflexivity. Qed.

(** C3. Neither loop raises, whatever the services answer. When the wait for
    an image raises, the line naming the image and the tag is printed right
    after the call and the waits go on with the images that follow; the same
    holds for the fetch of the findings. *)
Theorem isolated_failures_continue (remote : Remote) (tag : string) (st : State) :
  (exists st', recursive_wait remote tag st = (Ok tt, st')) /\
  (exists st', recursive_check_make_report remote tag st = (Ok tt, st')) /\
  forall (client : EcrClient) (before : list string) (image : string) (after : list string),
    aws_ecr_client (self st) = Some client ->
    images_to_check (self st) = (before ++ image :: after)%list ->
    ((exists e, ecr_wait_image_scan_complete remote client image tag 5 60 = Raise e) ->
     exists earlier later,
       trace (snd (recursive_wait remote tag st))
       = (earlier ++
          [EcrWaitImageScanComplete client image tag 5 60;
           Print ("No ECR image scan results for image " ++ image ++ ", tag " ++ tag)]
          ++ later)%list /\
       filter is_remote_call later
       = map (fun image => EcrWaitImageScanComplete client image tag 5 60) after) /\
    ((exists e,
         ecr_describe_image_scan_findings remote client image tag (report_limit (self st))
         = Raise e) ->
     exists earlier later,
       trace (snd (recursive_check_make_report remote tag st))
       = (earlier ++
          [EcrDescribeImageScanFindings client image tag (report_limit (self st));
           Print ("Unable to get ECR image scan results for image " ++ image
                  ++ ", tag " ++ tag)]
          ++ later)%list /\
       filter is_remote_call later
       = map (fun image =>
                EcrDescribeImageScanFindings client image tag (report_limit (self st)))
             after).
Proof.
  split; [|split].
  - rewrite recursive_wait_unfold.
    match goal with
    | |- context [for_each ?xs ?body ?s] =>
        destruct (for_each_returns body xs
                    (fun x st0 => try_except_print_returns _ _ st0) s) as [st1 ->]
    end.
    eexists. reflexivity.
  - rewrite recursive_check_make_report_unfold.
    match goal with
    | |- context [for_each ?xs ?body ?s] =>
        destruct (for_each_returns body xs
                    (fun x st0 => try_except_print_returns _ _ st0) s) as [st1 ->]
    end.
    eexists. reflexivity.
  - intros client before image after Hclient Himages. split.
    + intros [e Hwait].
      rewrite recursive_wait_unfold, Himages.
      match goal with
      | |- context [for_each _ _ ?s] =>
          destruct (wait_loop_split remote tag client before image after s e Hclient Hwait)
            as [earlier [later [-> Hcalls]]]
      end.
      cbn [self trace snd].
      exists (trace st ++ [Print "Waiting for ECR scans to complete..."] ++ earlier)%list,
             (later ++ [Print "ECR image scans complete"])%list.
      split; [repeat (rewrite <- app_assoc; cbn [app]); reflexivity|].
      rewrite filter_app, Hcalls. cbn. now rewrite app_nil_r.
    + intros [e Hfetch].
      rewrite recursive_check_make_report_unfold, Himages.
      match goal with
      | |- context [for_each _ _ ?s] =>
          destruct (check_loop_split remote tag client before image after s e Hclient Hfetch)
            as [r [earlier [later [-> Hcalls]]]]
      end.
      cbn [self trace snd].
      exists (trace st ++ [Print "Checking ECR scan results..."] ++ earlier)%list, later.
      split; [repeat (rewrite <- app_assoc; cbn [app]); reflexivity | exact Hcalls].
Qed.

Lemma isolated_failures_continue_witness :
  (exists earlier later,
      trace (snd (recursive_wait (Sample.remote 200) "latest"
                    (Sample.constructed ["svc-a"; "svc-b"; "svc-c"] "")))
      = (earlier ++
         [EcrWaitImageScanComplete Sample.client "svc-b" "latest" 5 60;
          Print "No ECR image scan results for image svc-b, tag latest"]
         ++ later)%list /\
      filter is_remote_call later
      = [EcrWaitImageScanComplete Sample.client "svc-c" "latest" 5 60]) /\
  (exists earlier later,
      trace (snd (recursive_check_make_report (Sample.remote 200) "latest"
                    (Sample.constructed ["svc-a"; "svc-b"; "svc-c"] "")))
      = (earlier ++
         [EcrDescribeImageScanFindings Sample.client "svc-b" "latest" (PyInt 5);
          Print "Unable to get ECR image scan results for image svc-b, tag latest"]
         ++ later)%list /\
      filter is_remote_call later
      = [EcrDescribeImageScanFindings Sample.client "svc-c" "latest" (PyInt 5)]).
Proof.
  pose proof (proj2 (proj2 (isolated_failures_continue (Sample.remote 200) "latest"
                              (Sample.constructed ["svc-a"; "svc-b"; "svc-c"] "")))
                Sample.client ["svc-a"] "svc-b" ["svc-c"] eq_refl eq_refl) as [Hwait Hfetch].
  split.
  - apply Hwait. eexists. reflexivity.
  - apply Hfetch. eexists. reflexivity.
Defined.

(** ** The whole run *)

Lemma wait_for_scan_completion_quiet (remote : Remote) (image tag : string) (st : State) :
  exists new,
    wait_for_scan_completion remote image tag st
    = (Ok tt, {| self := self st; trace := (trace st ++ new)%list |}) /\
    filter is_http_post new = [].
Proof.
  destruct (aws_ecr_client (self st)) as [client|] eqn:Hclient.
  - rewrite (wait_for_scan_completion_run remote image tag st client Hclient).
    eexists. split; [reflexivity|].
    now destruct (ecr_wait_image_scan_complete remote client image tag 5 60).
  - unfold wait_for_scan_completion, try_except, ecr_client, bind, get_self, raise, print, emit.
    rewrite Hclient. cbn [self trace]. eexists. split; reflexivity.
Qed.

Lemma wait_loop_quiet (remote : Remote) (tag : string) (images : list string) (st : State) :
  exists new,
    for_each images (fun image => wait_for_scan_completion remote image tag) st
    = (Ok tt, {| self := self st; trace := (trace st ++ new)%list |}) /\
    filter is_http_post new = [].
Proof.
  revert st; induction images as [|image images IH]; intros st.
  - exists []. cbn [for_each]. unfold ret. now rewrite app_nil_r, state_eta.
  - cbn [for_each]. unfold bind.
    destruct (wait_for_scan_completion_quiet remote image tag st) as [new1 [-> H1]].
    match goal with
    | |- context [for_each _ _ ?s] => destruct (IH s) as [new2 [-> H2]]
    end.
    cbn [self trace]. exists (new1 ++ new2)%list. rewrite <- app_assoc.
    split; [reflexivity|]. now rewrite filter_app, H1, H2.
Qed.

(** What [__init__] leaves behind when it returns. *)
Lemma init_returns (remote : Remote) (iam acct limit : PyVal) (search : string)
    (st st1 : State) :
  __init__ remote iam acct limit search st = (Ok tt, st1) ->
  report (self st1) = report (self st) /\
  filter is_http_post (trace st1) = filter is_http_post (trace st) /\
  exists client, aws_ecr_client (self st1) = Some client.
Proof.
  unfold __init__, set_iam_role_session, get_repositories, ecr_client, bind, modify_self,
    lift, get_self, emit, ret, raise.
  cbn [self trace].
  destruct (py_int limit) as [z|e]; [|discriminate].
  cbn [self trace aws_iam_session aws_ecr_client set_aws_iam_session set_aws_ecr_client
         set_aws_account_id set_report_limit set_iam_role_name].
  match goal with
  | |- context [sts_assume_role ?r ?a ?b ?c] => destruct (sts_assume_role r a b c) as [session|e]
  end; [|discriminate].
  cbn [self trace aws_iam_session aws_ecr_client set_aws_iam_session set_aws_ecr_client
         set_aws_account_id set_report_limit set_iam_role_name].
  match goal with
  | |- context [ecr_describe_repositories ?r ?c] =>
      destruct (ecr_describe_repositories r c) as [repositories|e]
  end; [|discriminate].
  intros [= <-]. cbn. rewrite !filter_app. cbn. rewrite !app_nil_r.
  split; [reflexivity|]. split; [reflexivity|]. eexists. reflexivity.
Qed.

Lemma post_to_slack_run (remote : Remote) (slack_webhook : string) (st : State) :
  exists res,
    post_to_slack remote slack_webhook st
    = (res,
       {| self := self st;
          trace := (trace st ++
                    [RequestsPost slack_webhook (Py.json_dumps_text (report (self st)))
                       [("Content-Type", "application/json")]])%list |}).
Proof.
  unfold post_to_slack, bind, get_self, emit, lift, ret, raise. cbn [self trace].
  destruct (requests_post remote slack_webhook _ _) as [response|e].
  - destruct (status_code response =? 200)%Z; eexists; reflexivity.
  - eexists; reflexivity.
Qed.

(** The run up to the last statement of [main], once the checker is built. *)
Lemma run_after_init (remote : Remote) (environ : Environ) (args : Args) (st st1 : State) :
  __init__ remote (args_iam_role_name args) (args_ecr_aws_account_id args)
    (args_result_limit args) (args_search args) st = (Ok tt, st1) ->
  exists r events,
    run remote environ args st
    = deliver remote args
        {| self := set_report r (self st1);
           trace := (trace st1 ++ events
                     ++ (if Py.is_empty r then [] else [Print r]))%list |} /\
    filter is_http_post events = [] /\
    (r <> "" <->
     report (self st1) <> "" \/
     exists image,
       In image (images_to_check (self st1)) /\
       has_findings remote (self st1) (args_tag args) image = true).
Proof.
  intros Hinit. unfold run. unfold bind at 1. rewrite Hinit.
  unfold bind at 1. rewrite recursive_wait_unfold.
  match goal with
  | |- context [for_each ?xs _ ?s] =>
      destruct (wait_loop_quiet remote (args_tag args) xs s) as [new1 [-> H1]]
  end.
  cbn [self trace]. unfold bind at 1. rewrite recursive_check_make_report_unfold.
  cbn [self trace].
  match goal with
  | |- context [for_each ?xs _ ?s] =>
      destruct (check_loop_run remote (args_tag args) xs s) as [r [new2 [-> [H2 [_ Hiff]]]]]
  end.
  cbn [self trace] in *. unfold bind at 1.
  unfold finalise_report, bind, get_self, modify_self, print, emit, ret.
  cbn [self trace report set_report].
  destruct (Py.is_empty r) eqn:Hempty.
  - exists r.
    exists ([Print "Waiting for ECR scans to complete..."] ++ new1
            ++ [Print "ECR image scans complete"; Print "Checking ECR scan results..."]
            ++ new2)%list.
    rewrite Hempty. split; [|split; [|exact Hiff]].
    + rewrite app_nil_r.
      repeat (rewrite <- app_assoc; cbn [app]). reflexivity.
    + rewrite !filter_app, H1, H2. reflexivity.
  - exists (r ++ branch_info environ).
    exists ([Print "Waiting for ECR scans to complete..."] ++ new1
            ++ [Print "ECR image scans complete"; Print "Checking ECR scan results..."]
            ++ new2)%list.
    assert (Hr : r <> "") by (intros H; apply is_empty_spec in H; congruence).
    assert (Hne : Py.is_empty (r ++ branch_info environ) = false).
    { destruct r; [congruence | reflexivity]. }
    rewrite Hne. split; [|split].
    + cbn [self trace report set_report].
      repeat (rewrite <- app_assoc; cbn [app]). reflexivity.
    + rewrite !filter_app, H1, H2. reflexivity.
    + rewrite <- Hiff. split; intros H; [exact Hr|].
      destruct r; [congruence | discriminate].
Qed.

Lemma main_after_init (remote : Remote) (environ : Environ) (cl : CommandLine) (st1 : State) :
  __init__ remote (args_iam_role_name (parse_args environ cl))
    (args_ecr_aws_account_id (parse_args environ cl))
    (args_result_limit (parse_args environ cl)) (args_search (parse_args environ cl))
    initial_state = (Ok tt, st1) ->
  exists r events,
    main remote environ cl
    = deliver remote (parse_args environ cl)
        {| self := set_report r (self st1);
           trace := (events ++ (if Py.is_empty r then [] else [Print r]))%list |} /\
    filter is_http_post events = [] /\
    (r <> "" <->
     exists image,
       In image (images_to_check (self st1)) /\
       has_findings remote (self st1) (args_tag (parse_args environ cl)) image = true).
Proof.
  intros Hinit.
  destruct (init_returns _ _ _ _ _ _ _ Hinit) as [Hreport [Hposts _]].
  destruct (run_after_init remote environ _ _ _ Hinit) as [r [events [Hrun [Hquiet Hiff]]]].
  exists r, (trace st1 ++ events)%list. unfold main. rewrite Hrun, <- app_assoc.
  split; [reflexivity|]. split.
  - rewrite filter_app, Hposts, Hquiet. reflexivity.
  - rewrite Hiff, Hreport. cbn [report self initial_state class_defaults].
    split; [intros [H|H]; [congruence | exact H] | intros H; now right].
Qed.

Lemma filter_posts_of_report (r : string) :
  filter is_http_post (if Py.is_empty r then [] else [Print r]) = [].
Proof. now destruct (Py.is_empty r). Qed.

(** C2, as the code has it. Once the checker is built, the report at the end
    of the run is not empty exactly when the fetch for some repository
    returned findings with their severity counts; whether the report is
    posted depends on the flag and on the webhook only, so an empty report
    is posted as well. *)
Theorem report_nonempty_iff_findings (remote : Remote) (environ : Environ)
    (cl : CommandLine) (st1 : State) :
  __init__ remote (args_iam_role_name (parse_args environ cl))
    (args_ecr_aws_account_id (parse_args environ cl))
    (args_result_limit (parse_args environ cl)) (args_search (parse_args environ cl))
    initial_state = (Ok tt, st1) ->
  exists res st2,
    main remote environ cl = (res, st2) /\
    (report (self st2) <> "" <->
     exists image,
       In image (images_to_check (self st1)) /\
       has_findings remote (self st1) (args_tag (parse_args environ cl)) image = true) /\
    filter is_http_post (trace st2)
    = match truthy (args_post_to_slack (parse_args environ cl)),
            args_slack_webhook (parse_args environ cl) with
      | true, Some slack_webhook =>
          [RequestsPost slack_webhook (Py.json_dumps_text (report (self st2)))
             [("Content-Type", "application/json")]]
      | _, _ => []
      end.
Proof.
  intros Hinit.
  destruct (main_after_init remote environ cl st1 Hinit) as [r [events [-> [Hquiet Hiff]]]].
  unfold deliver.
  destruct (truthy (args_post_to_slack (parse_args environ cl)));
    [destruct (args_slack_webhook (parse_args environ cl)) as [url|]|].
  - match goal with
    | |- context [post_to_slack _ _ ?s] =>
        destruct (post_to_slack_run remote url s) as [res ->]
    end.
    do 2 eexists. split; [reflexivity|]. cbn [self trace report set_report].
    split; [exact Hiff|].
    now rewrite !filter_app, Hquiet, filter_posts_of_report.
  - do 2 eexists. split; [reflexivity|]. cbn [self trace report set_report].
    split; [exact Hiff|].
    now rewrite !filter_app, Hquiet, filter_posts_of_report.
  - do 2 eexists. split; [reflexivity|]. cbn [self trace report set_report].
    split; [exact Hiff|].
    now rewrite !filter_app, Hquiet, filter_posts_of_report.
Qed.

Lemma report_nonempty_iff_findings_witness :
  exists res st2,
    main Sample.clean_remote Sample.ci_environ Sample.command_line = (res, st2) /\
    filter is_http_post (trace st2)
    = [RequestsPost "https://hooks.example/T1" (Py.json_dumps_text (report (self st2)))
         [("Content-Type", "application/json")]].
Proof.
  destruct (report_nonempty_iff_findings Sample.clean_remote Sample.ci_environ
              Sample.command_line _ eq_refl) as [res [st2 [Hrun [_ Hposts]]]].
  exists res, st2. split; [exact Hrun | exact Hposts].
Defined.

(** C2, as the claim has it, fails: with clean repositories and a webhook
    the report is empty and it is posted all the same. *)
Lemma empty_report_is_posted :
  ~ (report (self (snd (main Sample.clean_remote Sample.ci_environ Sample.command_line))) = ""
     -> filter is_http_post
          (trace (snd (main Sample.clean_remote Sample.ci_environ Sample.command_line)))
        = []).
Proof.
  intros H. specialize (H eq_refl). vm_compute in H. discriminate H.
Qed.



(** C9, as the code has it. A value given to [--post_to_slack] stays a
    string. When it is not empty it is truthy, whatever it spells, and the
    report is posted unless the webhook is [None]; the empty string is falsy
    and the post is skipped. *)
Theorem post_flag_from_command_line (remote : Remote) (environ : Environ)
    (cl : CommandLine) (value : string) :
  cli_post_to_slack cl = Some value ->
  args_post_to_slack (parse_args environ cl) = PyStr value /\
  (value <> "" ->
   truthy (args_post_to_slack (parse_args environ cl)) = true /\
   forall st,
     deliver remote (parse_args environ cl) st
     = match args_slack_webhook (parse_args environ cl) with
       | Some slack_webhook => post_to_slack remote slack_webhook st
       | None => print "No slack webhook provided, skipping post of results to slack" st
       end) /\
  (value = "" ->
   truthy (args_post_to_slack (parse_args environ cl)) = false /\
   forall st,
     deliver remote (parse_args environ cl) st
     = print "No slack webhook provided, skipping post of results to slack" st).
Proof.
  intros Hcl. unfold deliver. cbn [parse_args args_post_to_slack args_slack_webhook].
  rewrite Hcl. cbn [supplied truthy]. split; [reflexivity|]. split.
  - intros Hvalue. destruct value as [|c value]; [congruence|].
    cbn [Py.is_empty negb]. split; [reflexivity|]. intros st.
    now destruct (match cli_slack_webhook cl with Some s => Some s | None => _ end).
  - intros ->. cbn [Py.is_empty negb]. split; reflexivity.
Qed.

Lemma post_flag_from_command_line_witness :
  truthy (args_post_to_slack
            (parse_args Sample.ci_environ (Sample.with_post_to_slack "false"))) = true /\
  forall st,
    deliver (Sample.remote 200)
      (parse_args Sample.ci_environ (Sample.with_post_to_slack "false")) st
    = post_to_slack (Sample.remote 200) "https://hooks.example/T1" st.
Proof.
  apply (proj1 (proj2 (post_flag_from_command_line (Sample.remote 200) Sample.ci_environ
                         (Sample.with_post_to_slack "false") "false" eq_refl))).
  discriminate.
Defined.

(** C9, as the claim has it, fails: [--post_to_slack ''] gives a value that
    is a string and is falsy, and the post is skipped although the webhook
    is set. *)
Lemma empty_post_flag_skips_post :
  cli_post_to_slack (Sample.with_post_to_slack "") = Some "" /\
  args_slack_webhook (parse_args Sample.ci_environ (Sample.with_post_to_slack ""))
  = Some "https://hooks.example/T1" /\
  truthy (args_post_to_slack (parse_args Sample.ci_environ (Sample.with_post_to_slack "")))
  = false /\
  filter is_http_post
    (trace (snd (main (Sample.remote 200) Sample.ci_environ (Sample.with_post_to_slack ""))))
  = [].
Proof. repeat split; vm_compute; reflexivity. Qed.

(** ** [inspect.cleandoc] on the templates *)

Lemma has_char_append (c : ascii) (a b : string) :
  Py.has_char c (a ++ b) = Py.has_char c a || Py.has_char c b.
Proof.
  induction a as [|x a IH]; [reflexivity|].
  cbn [append Py.has_char]. now rewrite IH, orb_assoc.
Qed.

Lemma plain_append (a b : string) : plain a -> plain b -> plain (a ++ b).
Proof.
  unfold plain. intros [Ha1 Ha2] [Hb1 Hb2].
  now rewrite !has_char_append, Ha1, Ha2, Hb1, Hb2.
Qed.

Lemma expandtabs_from_no_tab (s : string) (col : nat) :
  Py.has_char Py.tab_char s = false -> Py.expandtabs_from col s = s.
Proof.
  revert col; induction s as [|c s IH]; intros col H; [reflexivity|].
  cbn [Py.has_char Py.expandtabs_from] in *.
  apply orb_false_iff in H as [Hc Hs]. rewrite Ascii.eqb_sym in Hc. rewrite Hc.
  destruct (Ascii.eqb c Py.nl_char || Ascii.eqb c Py.cr_char); now rewrite IH.
Qed.

Lemma split_lines_no_newline (s : string) :
  Py.has_char Py.nl_char s = false -> Py.split_lines s = [s].
Proof.
  induction s as [|c s IH]; intros H; [reflexivity|].
  cbn [Py.has_char Py.split_lines] in *.
  apply orb_false_iff in H as [Hc Hs]. rewrite Ascii.eqb_sym in Hc. rewrite Hc.
  now rewrite IH.
Qed.

Lemma split_lines_line (line rest : string) :
  Py.has_char Py.nl_char line = false ->
  Py.split_lines (line ++ Py.nl ++ rest) = line :: Py.split_lines rest.
Proof.
  induction line as [|c line IH]; intros H; [reflexivity|].
  cbn [Py.has_char Py.split_lines append] in *.
  apply orb_false_iff in H as [Hc Hs]. rewrite Ascii.eqb_sym in Hc. rewrite Hc.
  now rewrite IH.
Qed.

Lemma has_char_spaces (c : ascii) (n : nat) :
  Ascii.eqb c " " = false -> Py.has_char c (Py.spaces n) = false.
Proof.
  intros H. induction n as [|n IH]; [reflexivity|].
  cbn [Py.spaces Py.has_char]. now rewrite H.
Qed.

Lemma lstrip_spaces (n : nat) (s : string) : Py.lstrip (Py.spaces n ++ s) = Py.lstrip s.
Proof. induction n as [|n IH]; simpl; [reflexivity | exact IH]. Qed.

Lemma lstrip_visible (s : string) : starts_visible s -> Py.lstrip s = s.
Proof. destruct s as [|c s]; simpl; [reflexivity|]. now intros ->. Qed.

Lemma length_append (a b : string) :
  String.length (a ++ b) = String.length a + String.length b.
Proof. induction a as [|c a IH]; simpl; [reflexivity | now rewrite IH]. Qed.

Lemma length_spaces (n : nat) : String.length (Py.spaces n) = n.
Proof. induction n as [|n IH]; simpl; [reflexivity | now rewrite IH]. Qed.

Lemma drop_spaces (n : nat) (s : string) : Py.drop n (Py.spaces n ++ s) = s.
Proof. induction n as [|n IH]; simpl; [now destruct s | exact IH]. Qed.

Lemma drop_all_spaces (n : nat) : Py.drop n (Py.spaces n) = "".
Proof. induction n as [|n IH]; [reflexivity | exact IH]. Qed.

Lemma drop_empty (n : nat) : Py.drop n "" = "".
Proof. now destruct n. Qed.

Lemma margin_step_indented (margin : option nat) (indent : nat) (line : string) :
  starts_visible line ->
  Py.margin_step margin (Py.spaces indent ++ line)
  = Some match margin with
         | None => indent
         | Some m => Nat.min m indent
         end.
Proof.
  intros Hline. unfold Py.margin_step.
  rewrite lstrip_spaces, (lstrip_visible _ Hline), length_append, length_spaces.
  destruct line as [|c line]; [contradiction|]. cbn [String.length Nat.eqb].
  replace (indent + S (String.length line) - S (String.length line)) with indent by lia.
  now destruct margin.
Qed.

Lemma margin_step_blank (margin : option nat) (indent : nat) :
  Py.margin_step margin (Py.spaces indent) = margin.
Proof.
  unfold Py.margin_step.
  rewrite <- (append_empty_r (Py.spaces indent)), lstrip_spaces. reflexivity.
Qed.

Lemma margin_of_indented (indent : nat) (lines : list string) (margin : option nat) :
  Forall starts_visible lines ->
  (margin = None \/ margin = Some indent) ->
  fold_left Py.margin_step (map (fun l => Py.spaces indent ++ l) lines) margin
  = match lines with
    | [] => margin
    | _ :: _ => Some indent
    end.
Proof.
  intros Hlines. revert margin. induction Hlines as [|line lines Hline Hlines IH];
    intros margin Hmargin; [reflexivity|].
  cbn [map fold_left]. rewrite (margin_step_indented _ _ _ Hline).
  assert (Hstep : match margin with None => indent | Some m => Nat.min m indent end = indent).
  { destruct Hmargin as [-> | ->]; [reflexivity | apply Nat.min_id]. }
  rewrite Hstep, IH by now right. now destruct lines.
Qed.

Lemma join_cons (sep p q : string) (ps : list string) :
  Py.join sep (p :: q :: ps) = p ++ sep ++ Py.join sep (q :: ps).
Proof. reflexivity. Qed.

Lemma split_lines_indented (indent : nat) (lines : list string) (last : string) :
  lines <> [] ->
  Forall plain lines ->
  Py.split_lines
    (Py.join Py.nl (map (fun l => Py.spaces indent ++ l) lines) ++ Py.nl ++ last)
  = (map (fun l => (Py.spaces indent ++ l)%string) lines ++ Py.split_lines last)%list.
Proof.
  intros Hne Hlines. induction Hlines as [|line lines Hline Hlines IH]; [congruence|].
  assert (Hnl : Py.has_char Py.nl_char (Py.spaces indent ++ line) = false).
  { rewrite has_char_append, (proj2 Hline), has_char_spaces; reflexivity. }
  destruct lines as [|line' lines].
  - cbn [map Py.join app]. now rewrite split_lines_line.
  - change (map (fun l => Py.spaces indent ++ l) (line :: line' :: lines))
      with ((Py.spaces indent ++ line)
            :: map (fun l => Py.spaces indent ++ l) (line' :: lines)).
    cbn [map] in *. rewrite join_cons, !append_assoc.
    rewrite <- (append_assoc (Py.spaces indent) line).
    rewrite split_lines_line by exact Hnl. cbn [app]. f_equal.
    apply IH. discriminate.
Qed.

Lemma pop_trailing_empty_visible (lines : list string) :
  Forall starts_visible lines ->
  Py.pop_trailing_empty (lines ++ [""; ""]) = lines.
Proof.
  induction 1 as [|line lines Hline Hlines IH]; [reflexivity|].
  cbn [app Py.pop_trailing_empty]. rewrite IH.
  destruct lines; destruct line; try contradiction; reflexivity.
Qed.

Lemma has_tab_join_indented (indent : nat) (lines : list string) :
  Forall plain lines ->
  Py.has_char Py.tab_char (Py.join Py.nl (map (fun l => Py.spaces indent ++ l) lines))
  = false.
Proof.
  induction 1 as [|line lines Hline Hlines IH]; [reflexivity|].
  assert (Htab : Py.has_char Py.tab_char (Py.spaces indent ++ line) = false).
  { rewrite has_char_append, (proj1 Hline), has_char_spaces; reflexivity. }
  destruct lines as [|line' lines].
  - exact Htab.
  - cbn [map] in *. rewrite join_cons, has_char_append, Htab, has_char_append, IH.
    reflexivity.
Qed.

(** On such a text [cleandoc] gives the lines without their indentation and
    without the two closing lines. *)
Lemma cleandoc_indented_text (indent : nat) (first : string) (lines : list string) :
  plain first -> starts_visible first ->
  lines <> [] -> Forall plain lines -> Forall starts_visible lines ->
  Py.cleandoc (indented_text indent first lines) = Py.join Py.nl (first :: lines).
Proof.
  intros Hfirst Hvisible Hne Hplain Hlines. unfold Py.cleandoc, Py.expandtabs, indented_text.
  rewrite expandtabs_from_no_tab.
  2:{ rewrite !has_char_append, (proj1 Hfirst), has_tab_join_indented by exact Hplain.
      rewrite has_char_spaces; reflexivity. }
  rewrite split_lines_line by exact (proj2 Hfirst).
  rewrite split_lines_indented by assumption.
  change (Py.split_lines (Py.nl ++ Py.spaces indent))
    with ("" :: Py.split_lines (Py.spaces indent)).
  rewrite split_lines_no_newline by (apply has_char_spaces; reflexivity).
  cbn [tl]. rewrite fold_left_app, margin_of_indented by (assumption || now left).
  destruct lines as [|line lines]; [congruence|].
  cbn [fold_left]. rewrite margin_step_blank.
  change (Py.margin_step (Some indent) "") with (Some indent).
  cbv beta iota. rewrite map_app, map_map. cbn [map]. rewrite drop_empty.
  rewrite drop_all_spaces, drop_spaces.
  rewrite (map_ext _ (fun l => l)) by (intros l; apply drop_spaces).
  rewrite map_id, (lstrip_visible _ Hvisible).
  change (first :: (line :: lines) ++ [""; ""])%list
    with ((first :: line :: lines) ++ [""; ""])%list.
  rewrite pop_trailing_empty_visible by (constructor; assumption).
  cbn [Py.pop_leading_empty]. destruct first; [contradiction | reflexivity].
Qed.

(** ** The block of one finding *)

Lemma result_text_plain (image tag sev cve descr link : string) :
  plain image -> plain tag -> plain sev -> plain cve -> plain descr -> plain link ->
  result_text image tag sev cve descr link
  = "*Image:* " ++ image ++ Py.nl ++
    "**Tag:* " ++ tag ++ Py.nl ++
    "*Severity:* " ++ sev ++ Py.nl ++
    "*CVE:* " ++ cve ++ Py.nl ++
    "*Description:* " ++ descr ++ Py.nl ++
    "*Link:* " ++ link.
Proof.
  intros Himage Htag Hsev Hcve Hdescr Hlink.
  assert (Hlit : forall lit, Py.has_char Py.tab_char lit = false ->
                             Py.has_char Py.nl_char lit = false -> plain lit)
    by (intros lit H1 H2; split; assumption).
  transitivity
    (Py.cleandoc
       (indented_text 34 ("*Image:* " ++ image)
          ["**Tag:* " ++ tag; "*Severity:* " ++ sev; "*CVE:* " ++ cve;
           "*Description:* " ++ descr; "*Link:* " ++ link])).
  - unfold result_text, indented_text. f_equal. cbn [map Py.join].
    rewrite !append_assoc. reflexivity.
  - rewrite cleandoc_indented_text.
    + cbn [Py.join]. rewrite !append_assoc. reflexivity.
    + apply plain_append; [now apply Hlit | assumption].
    + reflexivity.
    + discriminate.
    + repeat constructor; (apply plain_append; [now apply Hlit | assumption]).
    + repeat constructor.
Qed.












Lemma starts_visible_append (p s : string) : starts_visible p -> starts_visible (p ++ s).
Proof. destruct p; [contradiction | exact (fun H => H)]. Qed.








(** The second way in which [cleandoc] changes a description: the white
    space at the start of a continuation line is part of the margin that it
    removes. *)
Lemma indented_description_line_is_trimmed :
  ~ is_substring ("heap" ++ Py.nl ++ "  overflow")
      (result_text "svc-a" "latest" "LOW" "CVE-9"
         ("heap" ++ Py.nl ++ "  overflow") "http://z") /\
  is_substring ("*Description:* heap" ++ Py.nl ++ "overflow")
    (result_text "svc-a" "latest" "LOW" "CVE-9"
       ("heap" ++ Py.nl ++ "  overflow") "http://z").
Proof.
  split.
  - intros H. apply contains_spec in H. vm_compute in H. discriminate H.
  - apply contains_spec. vm_compute. reflexivity.
Qed.


(** ** What becomes of the report of an earlier repository *)

(** What the inner loop appends does not depend on the state it starts in. *)
Lemma append_findings_suffix (image tag : string) (found : list Finding) :
  exists res suffix,
    forall st,
      for_each found (append_finding image tag) st
      = (res, {| self := set_report (report (self st) ++ suffix) (self st);
                 trace := trace st |}).
Proof.
  induction found as [|finding found IH].
  - exists (Ok tt), "". intros st. cbn [for_each]. unfold ret.
    now rewrite append_empty_r, set_report_same, state_eta.
  - destruct IH as [res [suffix IH]].
    destruct (name finding) as [cve|] eqn:Hname.
    2:{ exists (Raise (KeyError "name")), "". intros st. cbn [for_each].
        unfold bind at 1. unfold append_finding, bind, lookup, raise. rewrite Hname.
        now rewrite append_empty_r, set_report_same, state_eta. }
    destruct (severity finding) as [sev|] eqn:Hsev.
    2:{ exists (Raise (KeyError "severity")), "". intros st. cbn [for_each].
        unfold bind at 1. unfold append_finding, bind, lookup, raise, ret.
        rewrite Hname, Hsev.
        now rewrite append_empty_r, set_report_same, state_eta. }
    destruct (uri finding) as [link|] eqn:Huri.
    2:{ exists (Raise (KeyError "uri")), "". intros st. cbn [for_each].
        unfold bind at 1. unfold append_finding, bind, lookup, raise, ret.
        rewrite Hname, Hsev, Huri.
        now rewrite append_empty_r, set_report_same, state_eta. }
    exists res, (result_text image tag sev cve (description_of finding) link ++ suffix).
    intros st. cbn [for_each]. unfold bind at 1.
    unfold append_finding, bind, lookup, modify_self, ret. rewrite Hname, Hsev, Huri.
    rewrite IH. cbn [self trace report set_report]. now rewrite append_assoc.
Qed.

(** A repository with findings replaces the report: the text left in the
    report after its round is the same whatever the report held before. *)
Lemma check_image_discards_report (remote : Remote) (image tag : string)
    (client : EcrClient) (limit : PyVal) :
  exists text,
    forall st,
      aws_ecr_client (self st) = Some client ->
      report_limit (self st) = limit ->
      has_findings remote (self st) tag image = true ->
      report (self (snd (try_except (check_image remote image tag)
                           (print ("Unable to get ECR image scan results for image "
                                   ++ image ++ ", tag " ++ tag)) st)))
      = text.
Proof.
  destruct (ecr_describe_image_scan_findings remote client image tag limit)
    as [response|e] eqn:Hfetch.
  2:{ exists "". intros st Hclient Hlimit. unfold has_findings.
      now rewrite Hclient, Hlimit, Hfetch. }
  destruct (imageScanFindings response) as [scan|] eqn:Hscan.
  2:{ exists "". intros st Hclient Hlimit. unfold has_findings.
      now rewrite Hclient, Hlimit, Hfetch, Hscan. }
  destruct (findings scan) as [[|finding found]|] eqn:Hfound.
  1,3:(exists ""; intros st Hclient Hlimit; unfold has_findings;
       now rewrite Hclient, Hlimit, Hfetch, Hscan, Hfound).
  destruct (findingSeverityCounts scan) as [counts|] eqn:Hcounts.
  2:{ exists "". intros st Hclient Hlimit. unfold has_findings.
      now rewrite Hclient, Hlimit, Hfetch, Hscan, Hfound, Hcounts. }
  destruct (append_findings_suffix image tag (finding :: found)) as [res [suffix Hrun]].
  exists ((title_text image ++ severity_counts_text counts limit) ++ suffix).
  intros st Hclient Hlimit _.
  unfold check_image, get_ecr_scan_findings, ecr_client, try_except, bind, get_self,
    lookup, ret, raise, print, modify_self, lift, emit.
  cbn [self trace]. rewrite Hclient. cbn [self trace]. rewrite Hlimit, Hfetch.
  cbn [self trace]. rewrite Hscan. cbn [self trace]. rewrite Hfound. cbn [self trace].
  rewrite Hcounts. cbn [self trace]. rewrite Hrun.
  destruct res as [[]|e]; cbn [self trace snd report set_report report_limit];
    rewrite ?Hlimit; reflexivity.
Qed.

(** C1, at a run where the claim fails. [svc-a] and [svc-c] have one finding
    each and the fetch for [svc-b] raises: the report built for [svc-a] is
    printed, and after the loop the report holds the title, the counts and
    the block of [svc-c] only. *)
Theorem report_holds_last_repository_only :
  has_findings (Sample.remote 200)
    (self (Sample.constructed ["svc-a"; "svc-b"; "svc-c"] "")) "latest" "svc-a" = true /\
  In (Print (title_text "svc-a" ++
             "Severity finding counts: {'HIGH': 1}" ++ Py.nl ++
             "Displaying the first 5 in order of severity" ++
             "*Image:* svc-a" ++ Py.nl ++ "**Tag:* latest" ++ Py.nl ++
             "*Severity:* HIGH" ++ Py.nl ++ "*CVE:* CVE-1234" ++ Py.nl ++
             "*Description:* None" ++ Py.nl ++ "*Link:* http://x"))
     (trace (snd (recursive_check_make_report (Sample.remote 200) "latest"
                    (Sample.constructed ["svc-a"; "svc-b"; "svc-c"] "")))) /\
  report (self (snd (recursive_check_make_report (Sample.remote 200) "latest"
                       (Sample.constructed ["svc-a"; "svc-b"; "svc-c"] ""))))
  = title_text "svc-c" ++
    "Severity finding counts: {'LOW': 1}" ++ Py.nl ++
    "Displaying the first 5 in order of severity" ++
    "*Image:* svc-c" ++ Py.nl ++ "**Tag:* latest" ++ Py.nl ++
    "*Severity:* LOW" ++ Py.nl ++ "*CVE:* CVE-77" ++ Py.nl ++
    "*Description:* overflow in libz" ++ Py.nl ++ "*Link:* http://y" /\
  Py.contains "svc-a"
    (report (self (snd (recursive_check_make_report (Sample.remote 200) "latest"
                          (Sample.constructed ["svc-a"; "svc-b"; "svc-c"] "")))))
  = false.
Proof.
  split; [reflexivity|]. split; [|split].
  - vm_compute. right. right. left. reflexivity.
  - vm_compute. reflexivity.
  - vm_compute. reflexivity.
Qed.

(** ** Further properties: one round of the findings loop *)

Lemma append_finding_run (image tag : string) (finding : Finding) (st : State) :
  append_finding image tag finding st
  = match name finding, severity finding, uri finding with
    | Some cve, Some sev, Some link =>
        (Ok tt,
         {| self :=
              set_report
                (report (self st)
                 ++ result_text image tag sev cve (description_of finding) link)
                (self st);
            trace := trace st |})
    | None, _, _ => (Raise (KeyError "name"), st)
    | Some _, None, _ => (Raise (KeyError "severity"), st)
    | Some _, Some _, None => (Raise (KeyError "uri"), st)
    end.
Proof.
  unfold append_finding, bind, lookup, modify_self, ret, raise.
  destruct (name finding), (severity finding), (uri finding); reflexivity.
Qed.

Lemma append_findings_exact (image tag : string) (found : list Finding) (st : State) :
  exists res,
    for_each found (append_finding image tag) st
    = (res, {| self := set_report (report (self st) ++ blocks_text image tag found) (self st);
               trace := trace st |}) /\
    (all_complete found = true -> res = Ok tt) /\
    (all_complete found = false -> exists key, res = Raise (KeyError key)).
Proof.
  revert st; induction found as [|finding found IH]; intros st.
  - exists (Ok tt). cbn [for_each blocks_text all_complete forallb]. unfold ret.
    rewrite append_empty_r, set_report_same, state_eta.
    split; [reflexivity|]. split; [reflexivity | discriminate].
  - cbn [for_each blocks_text all_complete forallb]. unfold finding_block.
    unfold bind. rewrite append_finding_run.
    destruct (name finding) as [cve|].
    2:{ exists (Raise (KeyError "name")).
        rewrite append_empty_r, set_report_same, state_eta.
        split; [reflexivity|]. split; [discriminate | intros _; eexists; reflexivity]. }
    destruct (severity finding) as [sev|].
    2:{ exists (Raise (KeyError "severity")).
        rewrite append_empty_r, set_report_same, state_eta.
        split; [reflexivity|]. split; [discriminate | intros _; eexists; reflexivity]. }
    destruct (uri finding) as [link|].
    2:{ exists (Raise (KeyError "uri")).
        rewrite append_empty_r, set_report_same, state_eta.
        split; [reflexivity|]. split; [discriminate | intros _; eexists; reflexivity]. }
    match goal with
    | |- context [for_each _ _ ?s] => destruct (IH s) as [res [-> [Hok Hraise]]]
    end.
    exists res. cbn [self trace report set_report andb]. rewrite append_assoc.
    split; [reflexivity|]. split; assumption.
Qed.

Lemma check_round_findings (remote : Remote) (tag image : string) (st : State)
    (client : EcrClient) (response : ScanFindingsResponse) (scan : ImageScanFindings)
    (finding : Finding) (rest : list Finding) (counts : list (string * Z)) :
  aws_ecr_client (self st) = Some client ->
  ecr_describe_image_scan_findings remote client image tag (report_limit (self st))
  = Ok response ->
  imageScanFindings response = Some scan ->
  findings scan = Some (finding :: rest) ->
  findingSeverityCounts scan = Some counts ->
  check_round remote tag image st
  = (Ok tt,
     {| self :=
          set_report
            ((title_text image ++ severity_counts_text counts (report_limit (self st)))
             ++ blocks_text image tag (finding :: rest))
            (self st);
        trace :=
          (trace st ++
           [EcrDescribeImageScanFindings client image tag (report_limit (self st));
            Print (if all_complete (finding :: rest)
                   then (title_text image
                         ++ severity_counts_text counts (report_limit (self st)))
                        ++ blocks_text image tag (finding :: rest)
                   else "Unable to get ECR image scan results for image " ++ image
                        ++ ", tag " ++ tag)])%list |}).
Proof.
  intros Hclient Hfetch Hscan Hfound Hcounts.
  unfold check_round, check_image, get_ecr_scan_findings, ecr_client, try_except, bind,
    get_self, lookup, ret, raise, print, modify_self, lift, emit.
  cbn [self trace]. rewrite Hclient. cbn [self trace]. rewrite Hfetch.
  cbn [self trace]. rewrite Hscan. cbn [self trace]. rewrite Hfound. cbn [self trace].
  rewrite Hcounts. cbn [self trace].
  match goal with
  | |- context [for_each ?fs _ ?s] =>
      destruct (append_findings_exact image tag fs s) as [res [-> [Hok Hraise]]]
  end.
  cbn [self trace report set_report].
  destruct (all_complete (finding :: rest)).
  - rewrite (Hok eq_refl). cbn [self trace report set_report].
    now rewrite <- app_assoc.
  - destruct (Hraise eq_refl) as [key ->]. cbn [self trace report set_report].
    now rewrite <- app_assoc.
Qed.

(** X1. A round whose fetch returns findings with their counts sets the
    report to the title, the counts and the blocks of the findings in the
    order of the answer, whatever the report held. When every finding has
    its name, severity and link the report is printed; when one lacks a key
    the blocks stop before it and the line telling that the results could
    not be got is printed instead. *)
Theorem round_with_findings (remote : Remote) (tag image : string) (st : State)
    (client : EcrClient) (response : ScanFindingsResponse) (scan : ImageScanFindings)
    (finding : Finding) (rest : list Finding) (counts : list (string * Z)) :
  aws_ecr_client (self st) = Some client ->
  ecr_describe_image_scan_findings remote client image tag (report_limit (self st))
  = Ok response ->
  imageScanFindings response = Some scan ->
  findings scan = Some (finding :: rest) ->
  findingSeverityCounts scan = Some counts ->
  check_round remote tag image st
  = (Ok tt,
     {| self :=
          set_report
            ((title_text image ++ severity_counts_text counts (report_limit (self st)))
             ++ blocks_text image tag (finding :: rest))
            (self st);
        trace :=
          (trace st ++
           [EcrDescribeImageScanFindings client image tag (report_limit (self st));
            Print (if all_complete (finding :: rest)
                   then (title_text image
                         ++ severity_counts_text counts (report_limit (self st)))
                        ++ blocks_text image tag (finding :: rest)
                   else "Unable to get ECR image scan results for image " ++ image
                        ++ ", tag " ++ tag)])%list |}).
Proof.
  intros. eapply check_round_findings; eassumption.
Qed.

Lemma round_with_findings_witness :
  check_round (Sample.remote 200) "latest" "svc-c"
    (Sample.constructed ["svc-c"] "kept from svc-a")
  = (Ok tt,
     {| self :=
          set_report
            ((title_text "svc-c" ++ severity_counts_text [("LOW", 1%Z)] (PyInt 5))
             ++ blocks_text "svc-c" "latest" [Sample.cve_77])
            (self (Sample.constructed ["svc-c"] "kept from svc-a"));
        trace :=
          [EcrDescribeImageScanFindings Sample.client "svc-c" "latest" (PyInt 5);
           Print ((title_text "svc-c" ++ severity_counts_text [("LOW", 1%Z)] (PyInt 5))
                  ++ blocks_text "svc-c" "latest" [Sample.cve_77])] |}).
Proof.
  apply (round_with_findings (Sample.remote 200) "latest" "svc-c"
           (Sample.constructed ["svc-c"] "kept from svc-a") Sample.client
           _ _ Sample.cve_77 [] [("LOW", 1%Z)] eq_refl eq_refl eq_refl eq_refl eq_refl).
Defined.

(** X2. A round whose fetch returns an empty list of findings changes
    nothing in the checker and prints nothing: the fetch is all that is
    added to the trace. *)
Theorem round_with_empty_findings (remote : Remote) (tag image : string) (st : State)
    (client : EcrClient) (response : ScanFindingsResponse) (scan : ImageScanFindings) :
  aws_ecr_client (self st) = Some client ->
  ecr_describe_image_scan_findings remote client image tag (report_limit (self st))
  = Ok response ->
  imageScanFindings response = Some scan ->
  findings scan = Some [] ->
  check_round remote tag image st
  = (Ok tt,
     {| self := self st;
        trace :=
          (trace st ++
           [EcrDescribeImageScanFindings client image tag (report_limit (self st))])%list |}).
Proof.
  intros Hclient Hfetch Hscan Hfound.
  unfold check_round, check_image, get_ecr_scan_findings, ecr_client, try_except, bind,
    get_self, lookup, ret, raise, print, modify_self, lift, emit.
  cbn [self trace]. rewrite Hclient. cbn [self trace]. rewrite Hfetch.
  cbn [self trace]. rewrite Hscan. cbn [self trace]. rewrite Hfound. reflexivity.
Qed.

Lemma round_with_empty_findings_witness :
  check_round Sample.clean_remote "latest" "svc-a" (Sample.constructed ["svc-a"] "kept")
  = (Ok tt,
     {| self := self (Sample.constructed ["svc-a"] "kept");
        trace := [EcrDescribeImageScanFindings Sample.client "svc-a" "latest" (PyInt 5)] |}).
Proof.
  apply (round_with_empty_findings Sample.clean_remote "latest" "svc-a"
           (Sample.constructed ["svc-a"] "kept") Sample.client _ _
           eq_refl eq_refl eq_refl eq_refl).
Defined.

(** X3. A round whose answer lacks a key that is read before the report is
    assigned ([imageScanFindings], [findings], or [findingSeverityCounts]
    beside findings) leaves the checker as it was and prints the line
    telling that the results could not be got. *)
Theorem round_with_missing_key (remote : Remote) (tag image : string) (st : State)
    (client : EcrClient) (response : ScanFindingsResponse) :
  aws_ecr_client (self st) = Some client ->
  ecr_describe_image_scan_findings remote client image tag (report_limit (self st))
  = Ok response ->
  (imageScanFindings response = None \/
   exists scan,
     imageScanFindings response = Some scan /\
     (findings scan = None \/
      (findingSeverityCounts scan = None /\
       exists finding rest, findings scan = Some (finding :: rest)))) ->
  check_round remote tag image st
  = (Ok tt,
     {| self := self st;
        trace :=
          (trace st ++
           [EcrDescribeImageScanFindings client image tag (report_limit (self st));
            Print ("Unable to get ECR image scan results for image " ++ image
                   ++ ", tag " ++ tag)])%list |}).
Proof.
  intros Hclient Hfetch Hmissing.
  unfold check_round, check_image, get_ecr_scan_findings, ecr_client, try_except, bind,
    get_self, lookup, ret, raise, print, modify_self, lift, emit.
  cbn [self trace]. rewrite Hclient. cbn [self trace]. rewrite Hfetch. cbn [self trace].
  destruct Hmissing as [-> | [scan [-> [-> | [Hcounts [finding [rest ->]]]]]]];
    cbn [self trace]; rewrite ?Hcounts; cbn [self trace]; now rewrite <- app_assoc.
Qed.

Lemma round_with_missing_key_witness :
  check_round Sample.keyless_remote "latest" "svc-a" (Sample.constructed ["svc-a"] "kept")
  = (Ok tt,
     {| self := self (Sample.constructed ["svc-a"] "kept");
        trace :=
          [EcrDescribeImageScanFindings Sample.client "svc-a" "latest" (PyInt 5);
           Print "Unable to get ECR image scan results for image svc-a, tag latest"] |}).
Proof.
  apply (round_with_missing_key Sample.keyless_remote "latest" "svc-a"
           (Sample.constructed ["svc-a"] "kept")
           Sample.client {| imageScanFindings := None |} eq_refl eq_refl).
  left. reflexivity.
Defined.

(** ** Further properties: the findings loop as a whole *)

Lemma check_loop_without_findings (remote : Remote) (tag : string) (images : list string)
    (st : State) :
  (forall image, In image images -> has_findings remote (self st) tag image = false) ->
  exists new,
    for_each images (check_round remote tag) st
    = (Ok tt, {| self := self st; trace := (trace st ++ new)%list |}).
Proof.
  revert st; induction images as [|image images IH]; intros st Hnone.
  - exists []. cbn [for_each]. unfold ret. now rewrite app_nil_r, state_eta.
  - cbn [for_each]. unfold bind at 1. unfold check_round at 1.
    destruct (check_image_guarded_run remote image tag st)
      as [r [new1 [-> [_ [_ [_ Hsame]]]]]].
    rewrite (Hsame (Hnone image (or_introl eq_refl))), set_report_same.
    match goal with
    | |- context [for_each _ _ ?s] =>
        destruct (IH s (fun i Hi => Hnone i (or_intror Hi))) as [new2 ->]
    end.
    cbn [self trace]. exists (new1 ++ new2)%list. now rewrite <- app_assoc.
Qed.

(** X4. When no repository of the list has findings (the fetch raises, a key
    is missing or the list of findings is empty), [recursive_check_make_report]
    returns and leaves every attribute of the checker, the report included,
    as it was. *)
Theorem stage_without_findings (remote : Remote) (tag : string) (st : State) :
  (forall image,
      In image (images_to_check (self st)) ->
      has_findings remote (self st) tag image = false) ->
  fst (recursive_check_make_report remote tag st) = Ok tt /\
  self (snd (recursive_check_make_report remote tag st)) = self st.
Proof.
  intros Hnone. rewrite recursive_check_make_report_unfold.
  change (fun image : string =>
            try_except (check_image remote image tag)
              (print ("Unable to get ECR image scan results for image " ++ image
                      ++ ", tag " ++ tag)))
    with (check_round remote tag).
  match goal with
  | |- context [for_each _ _ ?s] =>
      destruct (check_loop_without_findings remote tag (images_to_check (self st)) s Hnone)
        as [new ->]
  end.
  split; reflexivity.
Qed.

Lemma stage_without_findings_witness :
  self (snd (recursive_check_make_report Sample.clean_remote "latest"
               (Sample.constructed ["svc-a"; "svc-b"] "kept")))
  = self (Sample.constructed ["svc-a"; "svc-b"] "kept").
Proof.
  apply (stage_without_findings Sample.clean_remote "latest"
           (Sample.constructed ["svc-a"; "svc-b"] "kept")).
  intros image _. reflexivity.
Defined.

(** X5. The report that [recursive_check_make_report] leaves is the one of
    the last repository with findings: when the repositories after it in the
    list have none, the report is the title, the counts and the blocks of
    that repository alone, whatever the repositories before it returned and
    whatever the report held at the start. *)
Theorem stage_report_of_last_findings (remote : Remote) (tag : string) (st : State)
    (client : EcrClient) (before : list string) (image : string) (after : list string)
    (response : ScanFindingsResponse) (scan : ImageScanFindings)
    (finding : Finding) (rest : list Finding) (counts : list (string * Z)) :
  aws_ecr_client (self st) = Some client ->
  images_to_check (self st) = (before ++ image :: after)%list ->
  ecr_describe_image_scan_findings remote client image tag (report_limit (self st))
  = Ok response ->
  imageScanFindings response = Some scan ->
  findings scan = Some (finding :: rest) ->
  findingSeverityCounts scan = Some counts ->
  (forall later, In later after -> has_findings remote (self st) tag later = false) ->
  report (self (snd (recursive_check_make_report remote tag st)))
  = (title_text image ++ severity_counts_text counts (report_limit (self st)))
    ++ blocks_text image tag (finding :: rest).
Proof.
  intros Hclient Himages Hfetch Hscan Hfound Hcounts Hafter.
  rewrite recursive_check_make_report_unfold, Himages, for_each_app.
  match goal with
  | |- context [for_each before _ ?s] =>
      destruct (check_loop_run remote tag before s) as [r0 [new0 [-> _]]]
  end.
  change (fun image : string =>
            try_except (check_image remote image tag)
              (print ("Unable to get ECR image scan results for image " ++ image
                      ++ ", tag " ++ tag)))
    with (check_round remote tag).
  cbn [for_each]. unfold bind at 1.
  match goal with
  | |- context [check_round remote tag image ?s] =>
      rewrite (check_round_findings remote tag image s client response scan finding rest
                 counts Hclient Hfetch Hscan Hfound Hcounts)
  end.
  match goal with
  | |- context [for_each after _ ?s] =>
      destruct (check_loop_without_findings remote tag after s Hafter) as [new ->]
  end.
  reflexivity.
Qed.

Lemma stage_report_of_last_findings_witness :
  report (self (snd (recursive_check_make_report (Sample.remote 200) "latest"
                       (Sample.constructed ["svc-a"; "svc-c"; "svc-b"] "kept"))))
  = (title_text "svc-c" ++ severity_counts_text [("LOW", 1%Z)] (PyInt 5))
    ++ blocks_text "svc-c" "latest" [Sample.cve_77].
Proof.
  apply (stage_report_of_last_findings (Sample.remote 200) "latest"
           (Sample.constructed ["svc-a"; "svc-c"; "svc-b"] "kept")
           Sample.client ["svc-a"] "svc-c" ["svc-b"] _ _ Sample.cve_77 [] [("LOW", 1%Z)]
           eq_refl eq_refl eq_refl eq_refl eq_refl eq_refl).
  intros later [<- | []]. reflexivity.
Defined.

(** ** Further properties: construction *)

Lemma init_run (remote : Remote) (iam acct limit : PyVal) (search : string)
    (st : State) (z : Z) (session : Session) (repositories : list Repository) :
  py_int limit = Ok z ->
  sts_assume_role remote
    ("arn:aws:iam::" ++ py_str acct ++ ":role/" ++ py_str iam)
    "checking_ecr_image_scan" 900 = Ok session ->
  ecr_describe_repositories remote
    {| region_name := "eu-west-1";
       aws_access_key_id := AccessKeyId (session_Credentials session);
       aws_secret_access_key := SecretAccessKey (session_Credentials session);
       aws_session_token := SessionToken (session_Credentials session) |}
  = Ok repositories ->
  __init__ remote iam acct limit search st
  = (Ok tt,
     {| self :=
          {| aws_account_id := acct;
             iam_role_name := iam;
             aws_iam_session := Some session;
             aws_ecr_client :=
               Some {| region_name := "eu-west-1";
                       aws_access_key_id := AccessKeyId (session_Credentials session);
                       aws_secret_access_key := SecretAccessKey (session_Credentials session);
                       aws_session_token := SessionToken (session_Credentials session) |};
             images_to_check :=
               filter (Py.contains search) (map repositoryName repositories);
             tag := tag (self st);
             report := report (self st);
             report_limit := PyInt z |};
        trace :=
          (trace st ++
           [StsAssumeRole ("arn:aws:iam::" ++ py_str acct ++ ":role/" ++ py_str iam)
              "checking_ecr_image_scan" 900;
            EcrDescribeRepositories
              {| region_name := "eu-west-1";
                 aws_access_key_id := AccessKeyId (session_Credentials session);
                 aws_secret_access_key := SecretAccessKey (session_Credentials session);
                 aws_session_token := SessionToken (session_Credentials session) |}])%list |}).
Proof.
  intros Hlimit Hrole Hlist.
  unfold __init__, set_iam_role_session, get_repositories, ecr_client, bind, modify_self,
    lift, get_self, emit, ret, raise.
  cbn [self trace]. rewrite Hlimit.
  cbn [self trace aws_iam_session aws_ecr_client aws_account_id iam_role_name
         set_aws_iam_session set_aws_ecr_client set_aws_account_id set_report_limit
         set_iam_role_name].
  rewrite Hrole.
  cbn [self trace aws_iam_session aws_ecr_client aws_account_id iam_role_name
         set_aws_iam_session set_aws_ecr_client set_aws_account_id set_report_limit
         set_iam_role_name].
  rewrite Hlist, keep_matching_fold.
  cbn [self trace aws_iam_session aws_ecr_client aws_account_id iam_role_name
         images_to_check tag report report_limit set_images_to_check
         set_aws_iam_session set_aws_ecr_client set_aws_account_id set_report_limit
         set_iam_role_name app].
  rewrite <- app_assoc. reflexivity.
Qed.

(** X6. When the limit is read, the role is assumed and the listing returns,
    [__init__] asks for the role named after the account and the role name,
    with the session name and the 900 seconds of the source, builds the
    client for [eu-west-1] from the three credentials of the session, lists
    the repositories once and stores the matching names; the report and the
    tag are not touched. *)
Theorem init_builds_checker (remote : Remote) (iam acct limit : PyVal) (search : string)
    (st : State) (z : Z) (session : Session) (repositories : list Repository) :
  py_int limit = Ok z ->
  sts_assume_role remote
    ("arn:aws:iam::" ++ py_str acct ++ ":role/" ++ py_str iam)
    "checking_ecr_image_scan" 900 = Ok session ->
  ecr_describe_repositories remote
    {| region_name := "eu-west-1";
       aws_access_key_id := AccessKeyId (session_Credentials session);
       aws_secret_access_key := SecretAccessKey (session_Credentials session);
       aws_session_token := SessionToken (session_Credentials session) |}
  = Ok repositories ->
  __init__ remote iam acct limit search st
  = (Ok tt,
     {| self :=
          {| aws_account_id := acct;
             iam_role_name := iam;
             aws_iam_session := Some session;
             aws_ecr_client :=
               Some {| region_name := "eu-west-1";
                       aws_access_key_id := AccessKeyId (session_Credentials session);
                       aws_secret_access_key := SecretAccessKey (session_Credentials session);
                       aws_session_token := SessionToken (session_Credentials session) |};
             images_to_check :=
               filter (Py.contains search) (map repositoryName repositories);
             tag := tag (self st);
             report := report (self st);
             report_limit := PyInt z |};
        trace :=
          (trace st ++
           [StsAssumeRole ("arn:aws:iam::" ++ py_str acct ++ ":role/" ++ py_str iam)
              "checking_ecr_image_scan" 900;
            EcrDescribeRepositories
              {| region_name := "eu-west-1";
                 aws_access_key_id := AccessKeyId (session_Credentials session);
                 aws_secret_access_key := SecretAccessKey (session_Credentials session);
                 aws_session_token := SessionToken (session_Credentials session) |}])%list |}).
Proof.
  intros. eapply init_run; eassumption.
Qed.

Lemma init_builds_checker_witness :
  __init__ (Sample.remote 200) (PyStr "ci") (PyStr "123") (PyStr " 10 ") "svc" initial_state
  = (Ok tt,
     {| self :=
          {| aws_account_id := PyStr "123";
             iam_role_name := PyStr "ci";
             aws_iam_session := Some {| session_Credentials := Sample.credentials |};
             aws_ecr_client := Some Sample.client;
             images_to_check := ["svc-a"; "svc-b"; "svc-c"];
             tag := "";
             report := "";
             report_limit := PyInt 10 |};
        trace :=
          [StsAssumeRole "arn:aws:iam::123:role/ci" "checking_ecr_image_scan" 900;
           EcrDescribeRepositories Sample.client] |}).
Proof.
  apply (init_builds_checker (Sample.remote 200) (PyStr "ci") (PyStr "123") (PyStr " 10 ")
           "svc" initial_state 10 {| session_Credentials := Sample.credentials |}
           _ eq_refl eq_refl eq_refl).
Defined.

(** X7. When the role cannot be assumed, the exception of the call leaves
    [main] as it is: the request for the role is the only event of the run,
    no repository is listed, waited for or fetched and nothing is posted. *)
Theorem delegation_failure_aborts (remote : Remote) (environ : Environ) (cl : CommandLine)
    (z : Z) (e : Exn) :
  py_int (args_result_limit (parse_args environ cl)) = Ok z ->
  sts_assume_role remote
    ("arn:aws:iam::" ++ py_str (args_ecr_aws_account_id (parse_args environ cl))
     ++ ":role/" ++ py_str (args_iam_role_name (parse_args environ cl)))
    "checking_ecr_image_scan" 900 = Raise e ->
  exists st',
    main remote environ cl = (Raise e, st') /\
    trace st'
    = [StsAssumeRole
         ("arn:aws:iam::" ++ py_str (args_ecr_aws_account_id (parse_args environ cl))
          ++ ":role/" ++ py_str (args_iam_role_name (parse_args environ cl)))
         "checking_ecr_image_scan" 900].
Proof.
  intros Hlimit Hrole. eexists.
  unfold main, run. unfold bind at 1.
  unfold __init__, set_iam_role_session, bind, modify_self, lift, get_self, emit.
  cbn [self trace]. rewrite Hlimit.
  cbn [self trace aws_account_id iam_role_name set_aws_account_id set_report_limit
         set_iam_role_name].
  rewrite Hrole. split; reflexivity.
Qed.

Lemma delegation_failure_aborts_witness :
  exists st',
    main {| sts_assume_role := fun _ _ _ => Raise (RemoteError "ClientError" "AccessDenied");
            ecr_describe_repositories := ecr_describe_repositories Sample.clean_remote;
            ecr_wait_image_scan_complete := ecr_wait_image_scan_complete Sample.clean_remote;
            ecr_describe_image_scan_findings :=
              ecr_describe_image_scan_findings Sample.clean_remote;
            requests_post := requests_post Sample.clean_remote |}
      Sample.ci_environ Sample.command_line
    = (Raise (RemoteError "ClientError" "AccessDenied"), st') /\
    trace st' = [StsAssumeRole "arn:aws:iam::123:role/ci" "checking_ecr_image_scan" 900].
Proof.
  apply (delegation_failure_aborts
           {| sts_assume_role := fun _ _ _ => Raise (RemoteError "ClientError" "AccessDenied");
              ecr_describe_repositories := ecr_describe_repositories Sample.clean_remote;
              ecr_wait_image_scan_complete :=
                ecr_wait_image_scan_complete Sample.clean_remote;
              ecr_describe_image_scan_findings :=
                ecr_describe_image_scan_findings Sample.clean_remote;
              requests_post := requests_post Sample.clean_remote |}
           Sample.ci_environ Sample.command_line 5 _ eq_refl eq_refl).
Defined.

(** X8. When the listing of the repositories raises, the exception leaves
    [main] as it is, after the request for the role and the listing call and
    before any wait, fetch or post. *)
Theorem listing_failure_aborts (remote : Remote) (environ : Environ) (cl : CommandLine)
    (z : Z) (session : Session) (e : Exn) :
  py_int (args_result_limit (parse_args environ cl)) = Ok z ->
  sts_assume_role remote
    ("arn:aws:iam::" ++ py_str (args_ecr_aws_account_id (parse_args environ cl))
     ++ ":role/" ++ py_str (args_iam_role_name (parse_args environ cl)))
    "checking_ecr_image_scan" 900 = Ok session ->
  ecr_describe_repositories remote
    {| region_name := "eu-west-1";
       aws_access_key_id := AccessKeyId (session_Credentials session);
       aws_secret_access_key := SecretAccessKey (session_Credentials session);
       aws_session_token := SessionToken (session_Credentials session) |}
  = Raise e ->
  exists st',
    main remote environ cl = (Raise e, st') /\
    trace st'
    = [StsAssumeRole
         ("arn:aws:iam::" ++ py_str (args_ecr_aws_account_id (parse_args environ cl))
          ++ ":role/" ++ py_str (args_iam_role_name (parse_args environ cl)))
         "checking_ecr_image_scan" 900;
       EcrDescribeRepositories
         {| region_name := "eu-west-1";
            aws_access_key_id := AccessKeyId (session_Credentials session);
            aws_secret_access_key := SecretAccessKey (session_Credentials session);
            aws_session_token := SessionToken (session_Credentials session) |}] /\
    images_to_check (self st') = [].
Proof.
  intros Hlimit Hrole Hlist. eexists.
  unfold main, run. unfold bind at 1.
  unfold __init__, set_iam_role_session, get_repositories, ecr_client, bind, modify_self,
    lift, get_self, emit, ret.
  cbn [self trace]. rewrite Hlimit.
  cbn [self trace aws_iam_session aws_ecr_client aws_account_id iam_role_name
         set_aws_iam_session set_aws_ecr_client set_aws_account_id set_report_limit
         set_iam_role_name].
  rewrite Hrole.
  cbn [self trace aws_iam_session aws_ecr_client aws_account_id iam_role_name
         set_aws_iam_session set_aws_ecr_client set_aws_account_id set_report_limit
         set_iam_role_name].
  rewrite Hlist. split; [reflexivity|]. split; reflexivity.
Qed.

Lemma listing_failure_aborts_witness :
  exists st',
    main {| sts_assume_role := sts_assume_role Sample.clean_remote;
            ecr_describe_repositories :=
              fun _ => Raise (RemoteError "ClientError" "Throttling");
            ecr_wait_image_scan_complete := ecr_wait_image_scan_complete Sample.clean_remote;
            ecr_describe_image_scan_findings :=
              ecr_describe_image_scan_findings Sample.clean_remote;
            requests_post := requests_post Sample.clean_remote |}
      Sample.ci_environ Sample.command_line
    = (Raise (RemoteError "ClientError" "Throttling"), st') /\
    trace st'
    = [StsAssumeRole "arn:aws:iam::123:role/ci" "checking_ecr_image_scan" 900;
       EcrDescribeRepositories Sample.client] /\
    images_to_check (self st') = [].
Proof.
  apply (listing_failure_aborts
           {| sts_assume_role := sts_assume_role Sample.clean_remote;
              ecr_describe_repositories :=
                fun _ => Raise (RemoteError "ClientError" "Throttling");
              ecr_wait_image_scan_complete :=
                ecr_wait_image_scan_complete Sample.clean_remote;
              ecr_describe_image_scan_findings :=
                ecr_describe_image_scan_findings Sample.clean_remote;
              requests_post := requests_post Sample.clean_remote |}
           Sample.ci_environ Sample.command_line 5
           {| session_Credentials := Sample.credentials |} _ eq_refl eq_refl eq_refl).
Defined.

(** ** Further properties: the stages and the run *)

Lemma recursive_wait_trace (remote : Remote) (tag : string) (st : State)
    (client : EcrClient) :
  aws_ecr_client (self st) = Some client ->
  exists new,
    recursive_wait remote tag st
    = (Ok tt,
       {| self := self st;
          trace := (trace st ++ [Print "Waiting for ECR scans to complete..."] ++ new
                    ++ [Print "ECR image scans complete"])%list |}) /\
    filter is_remote_call new
    = map (fun image => EcrWaitImageScanComplete client image tag 5 60)
          (images_to_check (self st)).
Proof.
  intros Hclient. rewrite recursive_wait_unfold.
  match goal with
  | |- context [for_each ?xs _ ?s] =>
      destruct (wait_loop_run remote tag client xs s Hclient) as [new [-> Hcalls]]
  end.
  exists new. cbn [self trace]. split; [|exact Hcalls].
  repeat (rewrite <- app_assoc; cbn [app]). reflexivity.
Qed.

(** X9. [recursive_wait] returns with the checker as it was. It prints its
    first line, waits once for every repository of the list, in the order of
    the list, with a delay of 5 and at most 60 attempts, and prints its last
    line. *)
Theorem recursive_wait_calls (remote : Remote) (tag : string) (st : State)
    (client : EcrClient) :
  aws_ecr_client (self st) = Some client ->
  exists new,
    recursive_wait remote tag st
    = (Ok tt,
       {| self := self st;
          trace := (trace st ++ [Print "Waiting for ECR scans to complete..."] ++ new
                    ++ [Print "ECR image scans complete"])%list |}) /\
    filter is_remote_call new
    = map (fun image => EcrWaitImageScanComplete client image tag 5 60)
          (images_to_check (self st)).
Proof.
  intros. eapply recursive_wait_trace; eassumption.
Qed.

Lemma recursive_wait_calls_witness :
  exists new,
    recursive_wait (Sample.remote 200) "latest" (Sample.constructed ["svc-a"; "svc-b"] "")
    = (Ok tt,
       {| self := self (Sample.constructed ["svc-a"; "svc-b"] "");
          trace := ([] ++ [Print "Waiting for ECR scans to complete..."] ++ new
                    ++ [Print "ECR image scans complete"])%list |}) /\
    filter is_remote_call new
    = [EcrWaitImageScanComplete Sample.client "svc-a" "latest" 5 60;
       EcrWaitImageScanComplete Sample.client "svc-b" "latest" 5 60].
Proof.
  apply (recursive_wait_calls (Sample.remote 200) "latest"
           (Sample.constructed ["svc-a"; "svc-b"] "") Sample.client eq_refl).
Defined.

Lemma recursive_check_trace (remote : Remote) (tag : string) (st : State)
    (client : EcrClient) :
  aws_ecr_client (self st) = Some client ->
  exists r new,
    recursive_check_make_report remote tag st
    = (Ok tt,
       {| self := set_report r (self st);
          trace := (trace st ++ [Print "Checking ECR scan results..."] ++ new)%list |}) /\
    filter is_remote_call new
    = map (fun image =>
             EcrDescribeImageScanFindings client image tag (report_limit (self st)))
          (images_to_check (self st)).
Proof.
  intros Hclient. rewrite recursive_check_make_report_unfold.
  match goal with
  | |- context [for_each ?xs _ ?s] =>
      destruct (check_loop_run remote tag xs s) as [r [new [-> [_ [Hcalls _]]]]]
  end.
  exists r, new. cbn [self trace]. split; [|exact (Hcalls client Hclient)].
  now rewrite <- app_assoc.
Qed.

(** X10. [recursive_check_make_report] returns having changed no attribute
    but the report. It fetches the findings once for every repository of the
    list, in the order of the list, with the stored limit as [maxResults],
    and makes no other remote call. *)
Theorem recursive_check_calls (remote : Remote) (tag : string) (st : State)
    (client : EcrClient) :
  aws_ecr_client (self st) = Some client ->
  exists r new,
    recursive_check_make_report remote tag st
    = (Ok tt,
       {| self := set_report r (self st);
          trace := (trace st ++ [Print "Checking ECR scan results..."] ++ new)%list |}) /\
    filter is_remote_call new
    = map (fun image =>
             EcrDescribeImageScanFindings client image tag (report_limit (self st)))
          (images_to_check (self st)).
Proof.
  intros. eapply recursive_check_trace; eassumption.
Qed.

Lemma recursive_check_calls_witness :
  exists r new,
    recursive_check_make_report (Sample.remote 200) "latest"
      (Sample.constructed ["svc-a"; "svc-b"] "")
    = (Ok tt,
       {| self := set_report r (self (Sample.constructed ["svc-a"; "svc-b"] ""));
          trace := ([] ++ [Print "Checking ECR scan results..."] ++ new)%list |}) /\
    filter is_remote_call new
    = [EcrDescribeImageScanFindings Sample.client "svc-a" "latest" (PyInt 5);
       EcrDescribeImageScanFindings Sample.client "svc-b" "latest" (PyInt 5)].
Proof.
  apply (recursive_check_calls (Sample.remote 200) "latest"
           (Sample.constructed ["svc-a"; "svc-b"] "") Sample.client eq_refl).
Defined.

Lemma filter_calls_of_report (r : string) :
  filter is_remote_call (if Py.is_empty r then [] else [Print r]) = [].
Proof. now destruct (Py.is_empty r). Qed.

(** The remote calls of the run between construction and delivery. *)
Lemma run_calls_after_init (remote : Remote) (environ : Environ) (args : Args)
    (st st1 : State) (client : EcrClient) :
  __init__ remote (args_iam_role_name args) (args_ecr_aws_account_id args)
    (args_result_limit args) (args_search args) st = (Ok tt, st1) ->
  aws_ecr_client (self st1) = Some client ->
  exists r events,
    run remote environ args st
    = deliver remote args
        {| self := set_report r (self st1); trace := (trace st1 ++ events)%list |} /\
    filter is_remote_call events
    = (map (fun image => EcrWaitImageScanComplete client image (args_tag args) 5 60)
         (images_to_check (self st1))
       ++ map (fun image =>
                 EcrDescribeImageScanFindings client image (args_tag args)
                   (report_limit (self st1)))
            (images_to_check (self st1)))%list.
Proof.
  intros Hinit Hclient. unfold run. unfold bind at 1. rewrite Hinit.
  unfold bind at 1.
  destruct (recursive_wait_trace remote (args_tag args) st1 client Hclient)
    as [new1 [-> H1]].
  unfold bind at 1.
  match goal with
  | |- context [recursive_check_make_report _ _ ?s] =>
      destruct (recursive_check_trace remote (args_tag args) s client Hclient)
        as [r [new2 [-> H2]]]
  end.
  cbn [self trace] in *. unfold bind at 1.
  unfold finalise_report, bind, get_self, modify_self, print, emit, ret.
  cbn [self trace report set_report].
  destruct (Py.is_empty r) eqn:Hempty.
  - exists r. eexists. split.
    + rewrite <- !app_assoc. reflexivity.
    + rewrite !filter_app, H1, H2. cbn [filter is_remote_call app].
      rewrite ?app_nil_r. reflexivity.
  - exists (r ++ branch_info environ). eexists. split.
    + cbn [self trace report set_report]. rewrite <- !app_assoc. reflexivity.
    + rewrite !filter_app, H1, H2. cbn [filter is_remote_call app].
      rewrite ?app_nil_r. reflexivity.
Qed.

(** X11. The remote calls of a whole run, in their order: the request for
    the role, the listing, one wait for every matching repository, then one
    fetch for every matching repository, and at the end one post when the
    flag is truthy and a webhook is known. All the waits come before the
    first fetch. *)
Theorem run_call_sequence (remote : Remote) (environ : Environ) (cl : CommandLine)
    (z : Z) (session : Session) (repositories : list Repository) :
  py_int (args_result_limit (parse_args environ cl)) = Ok z ->
  sts_assume_role remote
    ("arn:aws:iam::" ++ py_str (args_ecr_aws_account_id (parse_args environ cl))
     ++ ":role/" ++ py_str (args_iam_role_name (parse_args environ cl)))
    "checking_ecr_image_scan" 900 = Ok session ->
  ecr_describe_repositories remote
    {| region_name := "eu-west-1";
       aws_access_key_id := AccessKeyId (session_Credentials session);
       aws_secret_access_key := SecretAccessKey (session_Credentials session);
       aws_session_token := SessionToken (session_Credentials session) |}
  = Ok repositories ->
  let client :=
    {| region_name := "eu-west-1";
       aws_access_key_id := AccessKeyId (session_Credentials session);
       aws_secret_access_key := SecretAccessKey (session_Credentials session);
       aws_session_token := SessionToken (session_Credentials session) |} in
  let images :=
    filter (Py.contains (args_search (parse_args environ cl)))
      (map repositoryName repositories) in
  let tag := args_tag (parse_args environ cl) in
  filter is_remote_call (trace (snd (main remote environ cl)))
  = ([StsAssumeRole
        ("arn:aws:iam::" ++ py_str (args_ecr_aws_account_id (parse_args environ cl))
         ++ ":role/" ++ py_str (args_iam_role_name (parse_args environ cl)))
        "checking_ecr_image_scan" 900;
      EcrDescribeRepositories client]
     ++ map (fun image => EcrWaitImageScanComplete client image tag 5 60) images
     ++ map (fun image => EcrDescribeImageScanFindings client image tag (PyInt z)) images
     ++ match truthy (args_post_to_slack (parse_args environ cl)),
              args_slack_webhook (parse_args environ cl) with
        | true, Some slack_webhook =>
            [RequestsPost slack_webhook
               (Py.json_dumps_text (report (self (snd (main remote environ cl)))))
               [("Content-Type", "application/json")]]
        | _, _ => []
        end)%list.
Proof.
  intros Hlimit Hrole Hlist client images tag0.
  pose proof (init_run remote _ _ _ (args_search (parse_args environ cl))
                initial_state z session repositories Hlimit Hrole Hlist) as Hinit.
  destruct (run_calls_after_init remote environ _ _ _ client Hinit eq_refl)
    as [r [events [Hrun Hcalls]]].
  unfold main. rewrite Hrun. cbn [self trace images_to_check report_limit] in *.
  fold client images tag0 in Hcalls |- *.
  unfold deliver.
  destruct (truthy (args_post_to_slack (parse_args environ cl)));
    [destruct (args_slack_webhook (parse_args environ cl)) as [url|]|].
  - match goal with
    | |- context [post_to_slack _ _ ?s] =>
        destruct (post_to_slack_run remote url s) as [res ->]
    end.
    cbn [snd self trace report set_report].
    rewrite !filter_app, Hcalls. cbn [filter is_remote_call app initial_state trace].
    now rewrite <- !app_assoc.
  - unfold print, emit. cbn [snd self trace report set_report].
    rewrite !filter_app, Hcalls. cbn [filter is_remote_call app initial_state trace].
    now rewrite !app_nil_r.
  - unfold print, emit. cbn [snd self trace report set_report].
    rewrite !filter_app, Hcalls. cbn [filter is_remote_call app initial_state trace].
    now rewrite !app_nil_r.
Qed.

Lemma run_call_sequence_witness :
  filter is_remote_call
    (trace (snd (main Sample.clean_remote Sample.no_environ Sample.command_line)))
  = [StsAssumeRole "arn:aws:iam::123:role/ci" "checking_ecr_image_scan" 900;
     EcrDescribeRepositories Sample.client;
     EcrWaitImageScanComplete Sample.client "svc-a" "latest" 5 60;
     EcrWaitImageScanComplete Sample.client "svc-b" "latest" 5 60;
     EcrDescribeImageScanFindings Sample.client "svc-a" "latest" (PyInt 5);
     EcrDescribeImageScanFindings Sample.client "svc-b" "latest" (PyInt 5)].
Proof.
  apply (run_call_sequence Sample.clean_remote Sample.no_environ Sample.command_line 5
           {| session_Credentials := Sample.credentials |} _ eq_refl eq_refl eq_refl).
Defined.

(** X12. Once the checker is built, the delivery decides how the run ends.
    With a truthy flag and a webhook that answers every request in the same
    way, [main] returns when the answer has status 200, raises the
    [ValueError] with the status and the body when it has another status,
    and raises the exception of the request when the request itself raises. *)
Theorem run_outcome (remote : Remote) (environ : Environ) (cl : CommandLine)
    (st1 : State) (slack_webhook : string) (answer : Result HttpResponse) :
  __init__ remote (args_iam_role_name (parse_args environ cl))
    (args_ecr_aws_account_id (parse_args environ cl))
    (args_result_limit (parse_args environ cl)) (args_search (parse_args environ cl))
    initial_state = (Ok tt, st1) ->
  truthy (args_post_to_slack (parse_args environ cl)) = true ->
  args_slack_webhook (parse_args environ cl) = Some slack_webhook ->
  (forall data headers, requests_post remote slack_webhook data headers = answer) ->
  fst (main remote environ cl)
  = match answer with
    | Ok response =>
        if (status_code response =? 200)%Z then Ok tt
        else Raise (ValueError ("Request to slack returned an error "
                                ++ Py.str_int (status_code response)
                                ++ ", the response is:" ++ Py.nl ++ text response))
    | Raise e => Raise e
    end.
Proof.
  intros Hinit Hflag Hhook Hanswer.
  destruct (main_after_init remote environ cl st1 Hinit) as [r [events [-> _]]].
  unfold deliver. rewrite Hflag, Hhook.
  unfold post_to_slack, bind, get_self, emit, lift, ret, raise. cbn [self trace fst].
  rewrite Hanswer. destruct answer as [response|e]; [|reflexivity].
  now destruct (status_code response =? 200)%Z.
Qed.

Lemma run_outcome_witness :
  fst (main (Sample.remote 500) Sample.ci_environ Sample.command_line)
  = Raise (ValueError ("Request to slack returned an error 500, the response is:"
                       ++ Py.nl ++ "boom")).
Proof.
  apply (run_outcome (Sample.remote 500) Sample.ci_environ Sample.command_line _
           "https://hooks.example/T1" (Ok {| status_code := 500; text := "boom" |})
           eq_refl eq_refl eq_refl).
  intros data headers. reflexivity.
Defined.

(** ** Further properties: the texts of the limit and of the counts *)

Lemma plain_string_of_uint (d : Decimal.uint) : plain (NilEmpty.string_of_uint d).
Proof.
  unfold plain. induction d as [|d [IH1 IH2]|d [IH1 IH2]|d [IH1 IH2]|d [IH1 IH2]
                                |d [IH1 IH2]|d [IH1 IH2]|d [IH1 IH2]|d [IH1 IH2]
                                |d [IH1 IH2]|d [IH1 IH2]];
    cbn [NilEmpty.string_of_uint Py.has_char]; rewrite ?IH1, ?IH2; split; reflexivity.
Qed.

Lemma plain_str_int (z : Z) : plain (Py.str_int z).
Proof.
  unfold Py.str_int, NilZero.string_of_int, NilZero.string_of_uint.
  destruct (Z.to_int z) as [d|d].
  - destruct d; try apply plain_string_of_uint. split; reflexivity.
  - change (String "-" ?s) with ("-" ++ s). apply plain_append; [split; reflexivity|].
    destruct d; try apply plain_string_of_uint. split; reflexivity.
Qed.

Lemma plain_repr_char (q c : ascii) :
  q = Py.squote_char \/ q = Py.dquote_char -> plain (Py.repr_char q c).
Proof.
  intros [-> | ->]; destruct c as [[] [] [] [] [] [] [] []]; split; vm_compute; reflexivity.
Qed.

Lemma plain_repr_body (q : ascii) (s : string) :
  q = Py.squote_char \/ q = Py.dquote_char -> plain (Py.repr_body q s).
Proof.
  intros Hq. induction s as [|c s IH]; [split; reflexivity|].
  cbn [Py.repr_body]. apply plain_append; [now apply plain_repr_char | exact IH].
Qed.

Lemma plain_repr_str (s : string) : plain (Py.repr_str s).
Proof.
  unfold Py.repr_str.
  destruct (Py.has_char Py.squote_char s && negb (Py.has_char Py.dquote_char s)).
  - change (String Py.dquote_char ?t) with (Py.dquote ++ t).
    apply plain_append; [split; reflexivity|].
    apply plain_append; [apply plain_repr_body; now right | split; reflexivity].
  - change (String Py.squote_char ?t) with (String Py.squote_char "" ++ t).
    apply plain_append; [split; reflexivity|].
    apply plain_append; [apply plain_repr_body; now left | split; reflexivity].
Qed.

Lemma plain_join (sep : string) (parts : list string) :
  plain sep -> Forall plain parts -> plain (Py.join sep parts).
Proof.
  intros Hsep. induction 1 as [|p ps Hp Hps IH]; [split; reflexivity|].
  destruct ps as [|q ps]; [exact Hp|].
  rewrite join_cons. apply plain_append; [exact Hp|]. now apply plain_append.
Qed.

Lemma plain_str_dict (counts : list (string * Z)) : plain (Py.str_dict counts).
Proof.
  unfold Py.str_dict. apply plain_append; [split; reflexivity|].
  apply plain_append; [|split; reflexivity].
  apply plain_join; [split; reflexivity|].
  induction counts as [|kv counts IH]; constructor; [|exact IH].
  apply plain_append; [apply plain_repr_str|].
  apply plain_append; [split; reflexivity | apply plain_str_int].
Qed.

(** X13. For every dictionary of counts and every integer limit the summary
    is two lines, the counts as Python prints the dictionary and the line
    with the limit, and it does not end with a line feed: the block of the
    first finding follows the word [severity] on the same line. *)
Theorem severity_counts_text_lines (counts : list (string * Z)) (z : Z) :
  severity_counts_text counts (PyInt z)
  = "Severity finding counts: " ++ Py.str_dict counts ++ Py.nl ++
    "Displaying the first " ++ Py.str_int z ++ " in order of severity".
Proof.
  transitivity
    (Py.cleandoc
       (indented_text 38 ("Severity finding counts: " ++ Py.str_dict counts)
          ["Displaying the first " ++ Py.str_int z ++ " in order of severity"])).
  - unfold severity_counts_text, indented_text. f_equal. cbn [map Py.join py_str].
    rewrite !append_assoc. reflexivity.
  - rewrite cleandoc_indented_text.
    + cbn [Py.join]. rewrite !append_assoc. reflexivity.
    + apply plain_append; [split; reflexivity | apply plain_str_dict].
    + reflexivity.
    + discriminate.
    + constructor; [|constructor].
      apply plain_append; [split; reflexivity|].
      apply plain_append; [apply plain_str_int | split; reflexivity].
    + repeat constructor.
Qed.

(** ** Further properties: what is posted *)

(** X14. When the run posts a report that is not empty, the text sent to the
    webhook is the text of the line printed just before the request, that is
    the finished report with its closing block: the last two events of the
    run are that line and the post of its JSON form. *)
Theorem posted_text_is_printed_report (remote : Remote) (environ : Environ)
    (cl : CommandLine) (st1 : State) (slack_webhook : string) :
  __init__ remote (args_iam_role_name (parse_args environ cl))
    (args_ecr_aws_account_id (parse_args environ cl))
    (args_result_limit (parse_args environ cl)) (args_search (parse_args environ cl))
    initial_state = (Ok tt, st1) ->
  truthy (args_post_to_slack (parse_args environ cl)) = true ->
  args_slack_webhook (parse_args environ cl) = Some slack_webhook ->
  report (self (snd (main remote environ cl))) <> "" ->
  exists earlier,
    trace (snd (main remote environ cl))
    = (earlier ++
       [Print (report (self (snd (main remote environ cl))));
        RequestsPost slack_webhook
          (Py.json_dumps_text (report (self (snd (main remote environ cl)))))
          [("Content-Type", "application/json")]])%list.
Proof.
  intros Hinit Hflag Hhook.
  destruct (main_after_init remote environ cl st1 Hinit) as [r [events [-> _]]].
  unfold deliver. rewrite Hflag, Hhook.
  match goal with
  | |- context [post_to_slack _ _ ?s] =>
      destruct (post_to_slack_run remote slack_webhook s) as [res ->]
  end.
  cbn [snd self trace report set_report]. intros Hr.
  destruct (Py.is_empty r) eqn:Hempty; [apply is_empty_spec in Hempty; congruence|].
  exists events. now rewrite <- app_assoc.
Qed.

Lemma posted_text_is_printed_report_witness :
  exists earlier,
    trace (snd (main (Sample.remote 200) Sample.ci_environ Sample.command_line))
    = (earlier ++
       [Print (report (self (snd (main (Sample.remote 200) Sample.ci_environ
                                    Sample.command_line))));
        RequestsPost "https://hooks.example/T1"
          (Py.json_dumps_text
             (report (self (snd (main (Sample.remote 200) Sample.ci_environ
                                   Sample.command_line)))))
          [("Content-Type", "application/json")]])%list.
Proof.
  apply (posted_text_is_printed_report (Sample.remote 200) Sample.ci_environ
           Sample.command_line _ "https://hooks.example/T1" eq_refl eq_refl eq_refl).
  vm_compute. discriminate.
Defined.
